(** * als-microct-toolbox/data_management.py: a shallow embedding

    The module is a thin client of the SPOT data portal.  Its logic is
    string manipulation (building request paths), a handful of HTTP calls
    through one [requests.Session], and a few file-system helpers.

    The embedding has three layers:
    - [Py]: the Python string and list primitives the module calls
      ([str.strip], [str.split], [str.find], [in], indexing with negative
      indices, [readlines], [iter_content]);
    - [Json] and [Eff]: decoded response bodies, Python exceptions, and a
      small state-and-error monad whose state is the trace of external
      events (HTTP requests, file operations, console output, shell
      commands) issued so far;
    - [SpotSession] and [Nersc]: the methods and functions themselves. *)

From Stdlib Require Import String Ascii List ZArith Bool Lia.
Import ListNotations.

Local Open Scope string_scope.
Local Open Scope list_scope.

(* ================================================================== *)
(** ** Python string and sequence primitives *)

Module Py.

(** Exceptions the modelled code can raise. *)
Inductive exn : Type :=
| IndexError
| KeyError
| TypeError
| AttributeError
| NameError (name : string)
| UnboundLocalError (name : string)
| JSONDecodeError
| ConnectionError
| FileNotFoundError (path : string)
| OSError (path : string).

Definition result (A : Type) : Type := (exn + A)%type.

Definition newline : ascii := ascii_of_nat 10.
Definition nl : string := String newline "".

(** [c in chars], for a character and the character set of [strip]. *)
Fixpoint char_in (c : ascii) (chars : string) : bool :=
  match chars with
  | EmptyString => false
  | String k rest => Ascii.eqb c k || char_in c rest
  end.

(** Every character of [s] belongs to [chars]. *)
Fixpoint all_in (chars s : string) : bool :=
  match s with
  | EmptyString => true
  | String c rest => char_in c chars && all_in chars rest
  end.

(** [s.lstrip(chars)]: drop leading characters that occur in [chars]. *)
Fixpoint lstrip (chars s : string) : string :=
  match s with
  | EmptyString => EmptyString
  | String c rest => if char_in c chars then lstrip chars rest else s
  end.

(** [s.rstrip(chars)]: drop trailing characters that occur in [chars]. *)
Fixpoint rstrip (chars s : string) : string :=
  match s with
  | EmptyString => EmptyString
  | String c rest =>
      match rstrip chars rest with
      | EmptyString => if char_in c chars then EmptyString else String c EmptyString
      | r => String c r
      end
  end.

(** [s.strip(chars)].  The argument is a SET of characters, not a
    suffix: CPython advances a left index past members of [chars], then
    a right index back past members of [chars], and slices. *)
Definition strip (s chars : string) : string := rstrip chars (lstrip chars s).

(** [s.split(sep)] for a one-character separator. *)
Fixpoint split (s : string) (sep : ascii) : list string :=
  match s with
  | EmptyString => [EmptyString]
  | String c rest =>
      if Ascii.eqb c sep then EmptyString :: split rest sep
      else match split rest sep with
           | [] => [String c EmptyString]
           | seg :: segs => String c seg :: segs
           end
  end.

(** Index of the first occurrence of [sub] in [s], if any. *)
Fixpoint find_index (s sub : string) : option nat :=
  if prefix sub s then Some 0
  else match s with
       | EmptyString => None
       | String _ rest => option_map S (find_index rest sub)
       end.

(** [s.find(sub)]: the index, or -1. *)
Definition find (s sub : string) : Z :=
  match find_index s sub with
  | Some n => Z.of_nat n
  | None => (-1)%Z
  end.

(** [sub in s]. *)
Definition contains (sub s : string) : bool :=
  negb (find s sub =? -1)%Z.

(** [l[i]] for a Python list: negative indices count from the end. *)
Definition getitem {A : Type} (l : list A) (i : Z) : result A :=
  let n := Z.of_nat (List.length l) in
  let j := if (i <? 0)%Z then (i + n)%Z else i in
  if ((0 <=? j) && (j <? n))%Z
  then match nth_error l (Z.to_nat j) with
       | Some a => inr a
       | None => inl IndexError
       end
  else inl IndexError.

(** [s[i]] for a Python string: a one-character string. *)
Definition str_getitem (s : string) (i : Z) : result string :=
  match getitem (list_ascii_of_string s) i with
  | inr c => inr (String c EmptyString)
  | inl e => inl e
  end.

(** [range(n)]. *)
Definition range (n : nat) : list Z := List.map Z.of_nat (seq 0 n).

(** [f.readlines()] on text already decoded: each line keeps its
    terminating newline; a final line without one is kept as it is. *)
Fixpoint readlines (s : string) : list string :=
  match s with
  | EmptyString => []
  | String c rest =>
      if Ascii.eqb c newline then String c EmptyString :: readlines rest
      else match readlines rest with
           | [] => [String c EmptyString]
           | line :: lines => String c line :: lines
           end
  end.

(** [r.iter_content(chunk_size)]: the body cut into consecutive chunks
    of [chunk_size] bytes, the last one possibly shorter.  [room] is the
    space left in the chunk [cur] being filled. *)
Fixpoint iter_content_from (chunk_size room : nat) (cur body : string)
  : list string :=
  match body with
  | EmptyString => match cur with EmptyString => [] | _ => [cur] end
  | String c rest =>
      match room with
      | O => cur :: iter_content_from chunk_size (chunk_size - 1)
                      (String c EmptyString) rest
      | S room' => iter_content_from chunk_size room'
                      (cur ++ String c EmptyString)%string rest
      end
  end.

Definition iter_content (chunk_size : nat) (body : string) : list string :=
  iter_content_from chunk_size chunk_size EmptyString body.

End Py.

(* ================================================================== *)
(** ** Decoded JSON values *)

Module Json.
Import Py.

(** What [r.json()] returns.  Numbers are integers here (the module
    never computes with a decoded number); an object is the decoded
    [dict], its keys distinct. *)
#[warnings="-register-all"]
Inductive json : Type :=
| JNull
| JBool (b : bool)
| JNum (n : Z)
| JStr (s : string)
| JArr (items : list json)
| JObj (fields : list (string * json)).

Fixpoint lookup (k : string) (fields : list (string * json)) : option json :=
  match fields with
  | [] => None
  | (k', v) :: rest => if String.eqb k k' then Some v else lookup k rest
  end.

(** [v.__len__()]. *)
Definition len (v : json) : result nat :=
  match v with
  | JStr s => inr (String.length s)
  | JArr items => inr (List.length items)
  | JObj fields => inr (List.length fields)
  | _ => inl AttributeError
  end.

(** [v[i]] with an [int] index. *)
Definition item (v : json) (i : Z) : result json :=
  match v with
  | JArr items => getitem items i
  | JStr s => match str_getitem s i with
              | inr c => inr (JStr c)
              | inl e => inl e
              end
  | JObj _ => inl KeyError
  | _ => inl TypeError
  end.

(** [v[k]] with a [str] key. *)
Definition field (v : json) (k : string) : result json :=
  match v with
  | JObj fields => match lookup k fields with
                   | Some x => inr x
                   | None => inl KeyError
                   end
  | _ => inl TypeError
  end.

(** [v.find(sub)]: only a [str] has the method. *)
Definition find (v : json) (sub : string) : result Z :=
  match v with
  | JStr s => inr (Py.find s sub)
  | _ => inl AttributeError
  end.

(** [s + v] with [s] a [str]. *)
Definition add (s : string) (v : json) : result string :=
  match v with
  | JStr t => inr (s ++ t)%string
  | _ => inl TypeError
  end.

(** [v == False].  Python's [False] equals the number 0 and nothing else
    among decoded values. *)
Definition eq_False (v : json) : bool :=
  match v with
  | JBool b => negb b
  | JNum n => (n =? 0)%Z
  | _ => false
  end.

End Json.

(* ================================================================== *)
(** ** External events and the effect monad *)

Module Eff.
Import Py Json.

Definition params : Type := list (string * json).

(** What the code does to the outside world, in order. *)
Inductive event : Type :=
| SessionClose
| HttpGet (url : string) (query : params)
| HttpPost (url : string) (data : params)
| GetPass
| FileOpenRead (path : string)
| FileOpenWrite (path : string)
| FileWrite (path : string) (chunk : string)
| Stdout (args : list json)
| Log (msg : string)
| System (cmd : string).

Definition trace : Type := list event.

(** A [requests.Response]: its body as bytes, and the body decoded as
    JSON when it is valid JSON. *)
Record response : Type := {
  content : string;
  json_body : option json
}.

(** The environment: the portal, the terminal and the file system. *)
Record world : Type := {
  server_get : string -> params -> result response;
  server_post : string -> params -> result response;
  typed_password : string;
  files : string -> option string;
  writable : string -> bool
}.

Definition M (A : Type) : Type := trace -> result A * trace.

Definition ret {A : Type} (a : A) : M A := fun t => (inr a, t).
Definition raise {A : Type} (e : exn) : M A := fun t => (inl e, t).
Definition lift {A : Type} (r : result A) : M A := fun t => (r, t).
Definition emit (e : event) : M unit := fun t => (inr tt, t ++ [e]).

Definition bind {A B : Type} (m : M A) (k : A -> M B) : M B :=
  fun t => match m t with
           | (inr a, t') => k a t'
           | (inl e, t') => (inl e, t')
           end.

Definition rbind {A B : Type} (r : result A) (k : A -> result B) : result B :=
  match r with
  | inr a => k a
  | inl e => inl e
  end.

(** [session.get(url, params=query)]: the request goes out, and the
    portal answers or the transport fails. *)
Definition session_get (w : world) (url : string) (query : params)
  : M response :=
  fun t => (server_get w url query, t ++ [HttpGet url query]).

Definition session_post (w : world) (url : string) (data : params)
  : M response :=
  fun t => (server_post w url data, t ++ [HttpPost url data]).

(** [r.json()]. *)
Definition r_json (r : response) : M json :=
  match json_body r with
  | Some j => ret j
  | None => raise JSONDecodeError
  end.

(** [open(path, "wb")].  When the file cannot be opened Python raises
    [OSError] or one of its subclasses ([FileNotFoundError] for a missing
    directory, [PermissionError], ...); the one flag [writable] does not
    tell the causes apart, and [OSError path] stands for all of them. *)
Definition open_write (w : world) (path : string) : M unit :=
  fun t => (if writable w path then inr tt else inl (OSError path),
            t ++ [FileOpenWrite path]).

(** [open(path, 'r')] followed by [readlines()]. *)
Definition open_readlines (w : world) (path : string) : M (list string) :=
  fun t => (match files w path with
            | Some text => inr (readlines text)
            | None => inl (FileNotFoundError path)
            end,
            t ++ [FileOpenRead path]).

(** [for chunk in r.iter_content(...): if chunk: location.write(chunk)]. *)
Fixpoint write_chunks (path : string) (chunks : list string) : M unit :=
  match chunks with
  | [] => ret tt
  | chunk :: rest =>
      bind (match chunk with
            | EmptyString => ret tt
            | _ => emit (FileWrite path chunk)
            end)
           (fun _ => write_chunks path rest)
  end.

(** A local variable that may not have been assigned yet. *)
Definition load_local {A : Type} (name : string) (v : option A) : result A :=
  match v with
  | Some a => inr a
  | None => inl (UnboundLocalError name)
  end.

(** A free variable of a function body, looked up among the module's
    globals. *)
Definition load_global (globals : list (string * json)) (name : string)
  : result json :=
  match lookup name globals with
  | Some v => inr v
  | None => inl (NameError name)
  end.

End Eff.

Notation "x <- m ;; k" := (Eff.bind m (fun x => k))
  (at level 61, m at next level, right associativity).
Notation "'let?' x := r 'in' k" := (Eff.rbind r (fun x => k))
  (at level 61, x name, r at next level, right associativity).

(* ================================================================== *)
(** ** class SpotSession *)

Module SpotSession.
Import Py Json Eff.

(** The attributes set by [__init__].  [self.session] is the handle of
    the [requests.Session]; what is done through it is recorded in the
    trace.  The attributes the methods assign before use
    ([self.URL_search], [self.PARAMS_search], ...) are read back in the
    same statement group only, and appear as local definitions. *)
Record t : Type := {
  URL_authentication : string;
  username : string;
  spot_username : string
}.

(** [SpotSession(username='default', password=None)]. *)
Definition init (w : world) (username_arg : string) (password : option string)
  : M t :=
  password' <- match password with
               | None => (_ <- emit GetPass ;; ret (typed_password w))
               | Some p => ret p
               end ;;
  let url := "https://portal-auth.nersc.gov/als/auth" in
  let own := "alvarorh" in
  let spot := if String.eqb username_arg "default" then own else username_arg in
  _ <- session_get w url [] ;;
  _ <- session_post w url [("username", JStr spot); ("password", JStr password')] ;;
  ret {| URL_authentication := url; username := own; spot_username := spot |}.

(** [close(self)]. *)
Definition close (w : world) (self : t) : M json :=
  _ <- emit SessionClose ;;
  r <- session_get w (URL_authentication self) [] ;;
  r_json r.

Definition URL_search : string := "https://portal-auth.nersc.gov/als/hdf/search".

(** [search(self, search, limitnum, skipnum, sortterm, sorttype)]. *)
Definition search (w : world) (self : t) (query : string)
    (limitnum skipnum : Z) (sortterm sorttype : string) : M json :=
  let PARAMS_search :=
    [("limitnum", JNum limitnum); ("skipnum", JNum skipnum);
     ("sortterm", JStr sortterm); ("sorttype", JStr sorttype);
     ("search", JStr query)] in
  r <- session_get w URL_search PARAMS_search ;;
  r_json r.

(** [search(self, search)] with the keyword defaults. *)
Definition search_default (w : world) (self : t) (query : string) : M json :=
  search w self query 10 0 "fs.stage_date" "desc".

Definition URL_DerivedDatasets : string :=
  "https://portal-auth.nersc.gov/als/hdf/dataset".

(** [derived_datasets(self, dataset)]. *)
Definition derived_datasets (w : world) (self : t) (dataset : string) : M json :=
  let dataset := strip dataset ".h5" in
  let PARAMS_DerivedDatasets := [("dataset", JStr dataset)] in
  r <- session_get w URL_DerivedDatasets PARAMS_DerivedDatasets ;;
  r_json r.

(** [formatPath(self, dataset, username='default')].  The username is
    [None] for Python's [None]; the keyword default is [Some "default"].
    Returns [(filename, username)]. *)
Definition formatPath (self : t) (dataset : string) (username_arg : option string)
  : result (string * string) :=
  let dataset := strip dataset ".h5" in
  match username_arg with
  | None => inr (dataset, spot_username self)
  | Some name =>
      if String.eqb name "default" then inr (dataset, spot_username self)
      else if contains "/" dataset then
        let datasplit := split dataset "/" in
        let? username := getitem datasplit (-2) in
        let? filename := getitem datasplit (-1) in
        inr (filename, username)
      else inr (dataset, name)
  end.

Definition URL_attributes : string :=
  "https://portal-auth.nersc.gov/als/hdf/attributes/als/bl832/".

(** [attributes(self, dataset, username=None)]. *)
Definition attributes (w : world) (self : t) (dataset : string)
    (username_arg : option string) : M json :=
  fu <- lift (formatPath self dataset username_arg) ;;
  let '(dataset, username) := fu in
  let URLstring :=
    (URL_attributes ++ username ++ "/" ++ dataset ++ "/raw/" ++ dataset ++ ".h5")%string in
  r <- session_get w URLstring [("group", JStr "/")] ;;
  r_json r.

Definition URL_listImages : string :=
  "https://portal-auth.nersc.gov/als/hdf/listimages/als/bl832/".

(** [list_images(self, dataset, username)]. *)
Definition list_images (w : world) (self : t) (dataset username : string)
  : M json :=
  let dataset := strip dataset ".h5" in
  let URLstring :=
    (URL_listImages ++ username ++ "/" ++ dataset ++ "/raw/" ++ dataset ++ ".h5")%string in
  r <- session_get w URLstring [] ;;
  r_json r.

(** The scan shared by [download_image] and [download_URLS]:
<<
    for i in range(data_paths.__len__()):
        path = data_paths[i]['path']
        if path.find(kind) != -1:
            break
>>
    [path] is the local variable so far: [None] while unassigned. *)
Fixpoint scan_paths (data_paths : json) (kind : string) (indices : list Z)
    (path : option json) : result (option json) :=
  match indices with
  | [] => inr path
  | i :: rest =>
      let? record := item data_paths i in
      let? path' := field record "path" in
      let? hit := Json.find path' kind in
      if negb (hit =? -1)%Z then inr (Some path')
      else scan_paths data_paths kind rest (Some path')
  end.

Definition select_path (data_paths : json) (kind : string)
  : result (option json) :=
  let? n := len data_paths in
  scan_paths data_paths kind (range n) None.

Definition URL_rawdata : string := "https://portal-auth.nersc.gov/als/hdf/rawdata".
Definition URL_image : string := "https://portal-auth.nersc.gov/als/hdf/image".

(** [download_image(self, dataset, username, kind, number, downloadPath,
    downloadName)]. *)
Definition download_image (w : world) (self : t) (dataset : string)
    (username_arg : option string) (kind : string) (number : Z)
    (downloadPath downloadName : string) : M string :=
  fu <- lift (formatPath self dataset username_arg) ;;
  let '(filename, username) := fu in
  data_paths <- derived_datasets w self filename ;;
  path <- lift (select_path data_paths kind) ;;
  image_list <- list_images w self filename username ;;
  image <- lift (item image_list number) ;;
  let downloadPath :=
    if String.eqb downloadPath "default" then "./" else downloadPath in
  let downloadName :=
    if String.eqb downloadName "default" then filename else downloadName in
  last_char <- lift (str_getitem downloadPath (-1)) ;;
  let downloadPath :=
    if negb (String.eqb last_char "/") then (downloadPath ++ "/")%string
    else downloadPath in
  path_value <- lift (load_local "path" path) ;;
  URLstring <- lift (add URL_rawdata path_value) ;;
  group <- lift (add "/" image) ;;
  r <- session_get w URLstring [("group", JStr group)] ;;
  let fileLocation := (downloadPath ++ downloadName ++ ".tif")%string in
  _ <- open_write w fileLocation ;;
  _ <- write_chunks fileLocation (iter_content 512 (content r)) ;;
  _ <- emit (Stdout [JStr ("download  complete: " ++ fileLocation)%string]) ;;
  ret fileLocation.

(** [download_URLS(self, dataset, username, kind, number)]. *)
Definition download_URLS (w : world) (self : t) (dataset : string)
    (username_arg : option string) (kind : string) (number : Z) : M json :=
  fu <- lift (formatPath self dataset username_arg) ;;
  let '(filename, username) := fu in
  data_paths <- derived_datasets w self filename ;;
  path <- lift (select_path data_paths kind) ;;
  image_list <- list_images w self filename username ;;
  image <- lift (item image_list number) ;;
  path_value <- lift (load_local "path" path) ;;
  URLstring <- lift (add URL_image path_value) ;;
  group <- lift (add "/" image) ;;
  r <- session_get w URLstring [("group", JStr group)] ;;
  r_json r.

(** [check_authentication(self)]. *)
Definition check_authentication (w : world) (self : t) : M json :=
  r <- session_get w (URL_authentication self) [] ;;
  answer <- r_json r ;;
  lift (field answer "auth").

(** [authentication(self)].  [input("username:")] writes its prompt to
    standard output; the line it reads is [typed_username].  The new
    [requests.Session()] replaces [self.session]; its requests are
    recorded in the same trace. *)
Definition authentication (w : world) (typed_username : string) (self : t)
  : M json :=
  r <- session_get w (URL_authentication self) [] ;;
  answer <- r_json r ;;
  auth <- lift (field answer "auth") ;;
  _ <- (if eq_False auth then
          _ <- emit (Stdout [JStr "Authentication required to start a new session"]) ;;
          _ <- emit (Stdout [JStr "username:"]) ;;
          _ <- emit GetPass ;;
          _ <- session_post w (URL_authentication self)
                 [("username", JStr typed_username);
                  ("password", JStr (typed_password w))] ;;
          ret tt
        else ret tt) ;;
  r <- session_get w (URL_authentication self) [] ;;
  answer <- r_json r ;;
  lift (field answer "auth").

Definition URL_stage : string :=
  "https://portal-auth.nersc.gov/als/hdf/stageifneeded/als/bl832/".

(** [stage(self, dataset, username='default')]. *)
Definition stage (w : world) (self : t) (dataset : string)
    (username_arg : option string) : M json :=
  fu <- lift (formatPath self dataset username_arg) ;;
  let '(fileName, username) := fu in
  let URL_string :=
    (URL_stage ++ username ++ "/" ++ fileName ++ "/raw/" ++ fileName ++ ".h5")%string in
  r <- session_get w URL_string [] ;;
  r_json r.

Definition URL_download : string :=
  "https://portal-auth.nersc.gov/als/hdf/download/als/bl832/".

(** [download(self, dataset, username, downloadPath, downloadName)]. *)
Definition download (w : world) (self : t) (dataset : string)
    (username_arg : option string) (downloadPath downloadName : string)
  : M string :=
  fu <- lift (formatPath self dataset username_arg) ;;
  let '(filename, username) := fu in
  let downloadName := strip downloadName ".h5" in
  let downloadPath :=
    if String.eqb downloadPath "default" then "./" else downloadPath in
  let downloadName :=
    if String.eqb downloadName "default" then filename else downloadName in
  last_char <- lift (str_getitem downloadPath (-1)) ;;
  let downloadPath :=
    if negb (String.eqb last_char "/") then (downloadPath ++ "/")%string
    else downloadPath in
  let URL_string :=
    (URL_download ++ username ++ "/" ++ filename ++ "/raw/" ++ filename ++ ".h5")%string in
  r <- session_get w URL_string [] ;;
  let fileLocation := (downloadPath ++ downloadName ++ ".h5")%string in
  _ <- open_write w fileLocation ;;
  _ <- write_chunks fileLocation (iter_content 512 (content r)) ;;
  _ <- emit (Stdout [JStr ("download  complete: " ++ fileLocation)%string]) ;;
  ret fileLocation.

Definition URL_tomopyjob : string :=
  "https://portal-auth.nersc.gov/als/hdf/tomopyjob".

(** [run_TomoPy(self, raw_dataset)]. *)
Definition run_TomoPy (w : world) (self : t) (raw_dataset : string) : M json :=
  let raw_dataset := strip raw_dataset ".h5" in
  let raw_dataset := strip raw_dataset "/" in
  r <- session_get w URL_tomopyjob [("dataset", JStr raw_dataset)] ;;
  r_json r.

End SpotSession.

(* ================================================================== *)
(** ** Module-level functions for NERSC *)

Module Nersc.
Import Py Json Eff.

Definition NERSC_DefaultPath : string :=
  "/global/project/projectdirs/als/spade/warehouse/als/bl832/".
Definition userDefault : string := "hsbarnard".

(** The string-valued names bound at module level.  The remaining
    globals are the imported modules, the class and the functions. *)
Definition module_globals : list (string * json) :=
  [("NERSC_DefaultPath", JStr NERSC_DefaultPath);
   ("userDefault", JStr userDefault)].

(** The loop of [list_from_txt]:
<<
    for i in range(len(data)):
        data[i] = data[i].strip(" ")
        data[i] = data[i].strip("\n")
        if data[i][0] != comment:
            fileList.append(data[i])
>>
    Each iteration touches [data[i]] only, so the loop is a traversal of
    the lines in order. *)
Fixpoint keep_lines (data : list string) (comment : string)
    (fileList : list string) : result (list string) :=
  match data with
  | [] => inr fileList
  | line :: rest =>
      let line := strip line " " in
      let line := strip line nl in
      let? first := str_getitem line 0 in
      if negb (String.eqb first comment)
      then keep_lines rest comment (fileList ++ [line])
      else keep_lines rest comment fileList
  end.

(** [list_from_txt(TextFilePath, comment='#')].  [execfile] is not a
    name of the module nor a Python 3 builtin, so the first branch fails
    on the lookup. *)
Definition list_from_txt (w : world) (TextFilePath comment : string)
  : M (list string) :=
  if contains ".py" TextFilePath then
    _ <- lift (load_global module_globals "execfile") ;;
    ret []
  else
    data <- open_readlines w TextFilePath ;;
    lift (keep_lines data comment []).

(** The [filename] argument: one name, or a list of names. *)
Inductive names : Type :=
| One (name : string)
| Several (l : list string).

(** [if type(filename) != list: filename = [filename]]. *)
Definition as_list (filename : names) : list string :=
  match filename with
  | One name => [name]
  | Several l => l
  end.


(** First loop of [NERSC_RetreiveData].  The body names [useraccount],
    which is neither a parameter nor a local of the function, so each
    use is a global lookup in [globals]. *)
Fixpoint build_paths (globals : list (string * json)) (filename : list string)
    (destinationpath archivepath : string) (filePathIn filePathOut : list string)
  : M (list string * list string) :=
  match filename with
  | [] => ret (filePathIn, filePathOut)
  | f :: rest =>
      useraccount <- lift (load_global globals "useraccount") ;;
      _ <- emit (Stdout [JStr archivepath; useraccount; JStr f]) ;;
      useraccount <- lift (load_global globals "useraccount") ;;
      source <- lift (add archivepath useraccount) ;;
      let source := (source ++ "/" ++ f ++ "/raw/" ++ f ++ ".h5")%string in
      let target := (destinationpath ++ f ++ ".h5")%string in
      build_paths globals rest destinationpath archivepath
                  (filePathIn ++ [source]) (filePathOut ++ [target])
  end.

(** Second loop: [indices] is [range(len(filename))]. *)
Fixpoint copy_files (indices : list Z) (filePathIn filePathOut : list string)
  : M unit :=
  match indices with
  | [] => ret tt
  | i :: rest =>
      source <- lift (getitem filePathIn i) ;;
      _ <- emit (Log ("begin transfer: " ++ source)%string) ;;
      source <- lift (getitem filePathIn i) ;;
      target <- lift (getitem filePathOut i) ;;
      _ <- emit (System ("cp " ++ source ++ " " ++ target)%string) ;;
      _ <- emit (Log "transfer complete: ") ;;
      copy_files rest filePathIn filePathOut
  end.

(** [NERSC_RetreiveData(filename, username, destinationpath, archivepath)],
    run with the module's globals [globals]. *)
Definition NERSC_RetreiveData_in (globals : list (string * json))
    (filename : names) (username destinationpath archivepath : string) : M unit :=
  let filename := as_list filename in
  paths <- build_paths globals filename destinationpath archivepath [] [] ;;
  let '(filePathIn, filePathOut) := paths in
  _ <- emit (Log "file path list complete") ;;
  _ <- emit (Stdout [JArr (List.map JStr filePathIn)]) ;;
  _ <- emit (Log "destination path list complete") ;;
  _ <- emit (Stdout [JArr (List.map JStr filePathOut)]) ;;
  copy_files (range (List.length filename)) filePathIn filePathOut.

Definition NERSC_RetreiveData : names -> string -> string -> string -> M unit :=
  NERSC_RetreiveData_in module_globals.

Definition URL_stageifneeded : string :=
  "https://portal-auth.nersc.gov/als/hdf/stageifneeded/als/bl832/".

(** The loop of [NERSC_StageData].  [useraccount] and [command_string]
    are free variables of the function: global lookups. *)
Fixpoint stage_each (w : world) (globals : list (string * json))
    (filename : list string) (r_list : list json) : M (list json) :=
  match filename with
  | [] => ret r_list
  | f :: rest =>
      useraccount <- lift (load_global globals "useraccount") ;;
      url <- lift (add URL_stageifneeded useraccount) ;;
      r <- session_get w (url ++ "/" ++ f ++ "/raw/" ++ f ++ ".h5")%string [] ;;
      command_string <- lift (load_global globals "command_string") ;;
      _ <- emit (Stdout [command_string]) ;;
      answer <- r_json r ;;
      stage_each w globals rest (r_list ++ [answer])
  end.

(** [NERSC_StageData(filename, username='default')], run with the
    module's globals [globals].  The prompt of [input] goes to standard
    output; the line read is [typed_username]. *)
Definition NERSC_StageData_in (globals : list (string * json)) (w : world)
    (typed_username : string) (filename : names) (username : string)
  : M (list json) :=
  _ <- emit (Stdout [JStr "username:"]) ;;
  _ <- emit GetPass ;;
  let spot_username := typed_username in
  let spot_password := typed_password w in
  let username :=
    if String.eqb username "default" then spot_username else username in
  _ <- session_post w "https://portal-auth.nersc.gov/als/auth"
         [("username", JStr spot_username); ("password", JStr spot_password)] ;;
  stage_each w globals (as_list filename) [].

Definition NERSC_StageData : world -> string -> names -> string -> M (list json) :=
  NERSC_StageData_in module_globals.

End Nersc.

(* ================================================================== *)
(** ** Properties spoken of below *)

Import Py Json Eff.

(** The copy commands among the events of a trace. *)
Fixpoint copies (tr : trace) : list string :=
  match tr with
  | [] => []
  | System cmd :: rest => cmd :: copies rest
  | _ :: rest => copies rest
  end.

(** The URLs requested with GET among the events of a trace. *)
Fixpoint requested (tr : trace) : list string :=
  match tr with
  | [] => []
  | HttpGet url _ :: rest => url :: requested rest
  | _ :: rest => requested rest
  end.

Definition is_error {A : Type} (r : result A) : bool :=
  match r with
  | inl _ => true
  | inr _ => false
  end.

(** A session method, run after [close] from the trace [tr], is rejected:
    it fails and leaves the trace as [close] left it. *)
Definition rejected_after_close {A : Type} (w : world) (self : SpotSession.t)
    (op : M A) (tr : trace) : Prop :=
  let closed := snd (SpotSession.close w self tr) in
  is_error (fst (op closed)) = true /\ snd (op closed) = closed.

(** A derived-dataset record whose ['path'] is the string [p]. *)
Definition has_path (record : json) (p : string) : Prop :=
  field record "path" = inr (JStr p).

(** A record whose path does not contain the kind. *)
Definition misses (kind : string) (record : json) : Prop :=
  exists p, has_path record p /\ contains kind p = false.

(** What a method that returns [r.json()] makes of the portal's answer. *)
Definition decoded (r : result response) : result json :=
  match r with
  | inr resp => match json_body resp with
                | Some j => inr j
                | None => inl JSONDecodeError
                end
  | inl e => inl e
  end.

(** A session as [SpotSession()] with the default username leaves it. *)
Definition session0 : SpotSession.t :=
  {| SpotSession.URL_authentication := "https://portal-auth.nersc.gov/als/auth";
     SpotSession.username := "alvarorh";
     SpotSession.spot_username := "alvarorh" |}.

(** A portal that answers every request with the empty JSON list. *)
Definition empty_list_world : world :=
  {| server_get := fun _ _ => inr {| content := "[]"; json_body := Some (JArr []) |};
     server_post := fun _ _ => inr {| content := "[]"; json_body := Some (JArr []) |};
     typed_password := "";
     files := fun _ => None;
     writable := fun _ => true |}.

(** The query of [derived_datasets] and the URL of [list_images] for a
    filename and a username. *)
Definition derived_query (filename : string) : params :=
  [("dataset", JStr (strip filename ".h5"))].

Definition listimages_url (filename username : string) : string :=
  (SpotSession.URL_listImages ++ username ++ "/" ++ strip filename ".h5"
   ++ "/raw/" ++ strip filename ".h5" ++ ".h5")%string.

(** The "group" query of the download requests for an image path. *)
Definition group_query (image : string) : params :=
  [("group", JStr ("/" ++ image)%string)].

(** Where [download_image] writes, without the extension: the directory
    ("./" for 'default', a "/" added when it does not end in one) followed
    by the name (the filename for 'default').  Indexing the last character
    fails on an empty directory. *)
Definition destination (downloadPath downloadName filename : string)
  : result string :=
  let dir := if String.eqb downloadPath "default" then "./" else downloadPath in
  let name := if String.eqb downloadName "default" then filename else downloadName in
  let? last_char := str_getitem dir (-1) in
  inr ((if negb (String.eqb last_char "/") then dir ++ "/" else dir) ++ name)%string.

(** The chunks written to a file, put together again. *)
Definition joined (chunks : list string) : string :=
  List.fold_right String.append "" chunks.

(** A mock portal: the derived-dataset endpoint answers [derived], every
    image-listing URL answers [images], the image-URL endpoint answers a
    JSON object, and every other GET answers the binary payload
    [payload]. *)
Definition mock_world (derived images : json) (payload : string) : world :=
  {| server_get := fun url _ =>
       if String.eqb url SpotSession.URL_DerivedDatasets
       then inr {| content := ""; json_body := Some derived |}
       else if prefix SpotSession.URL_listImages url
       then inr {| content := ""; json_body := Some images |}
       else if prefix SpotSession.URL_image url
       then inr {| content := ""; json_body := Some (JObj [("url", JStr url)]) |}
       else inr {| content := payload; json_body := None |};
     server_post := fun _ _ => inr {| content := ""; json_body := Some JNull |};
     typed_password := "";
     files := fun _ => None;
     writable := fun _ => true |}.

(** The mock portal of the end-to-end scenario. *)
Definition scenario_world : world :=
  mock_world (JArr [JObj [("kind", JStr "norm"); ("path", JStr "/p1")]])
             (JArr [JStr "img0.tif"; JStr "img1.tif"]) "II*tiff".

(** A mock portal with two derived datasets, neither of kind "norm". *)
Definition sino_record : json :=
  JObj [("kind", JStr "sino"); ("path", JStr "/hmwood/scan_01/sino/a.h5")].
Definition gridrec_record : json :=
  JObj [("kind", JStr "gridrec"); ("path", JStr "/hmwood/scan_01/gridrec/b.h5")].
Definition two_records_world : world :=
  mock_world (JArr [sino_record; gridrec_record]) (JArr [JStr "img0.tif"]) "II*tiff".

(** A mock portal with three derived datasets; the second and the third
    are both of kind "gridrec". *)
Definition later_gridrec_record : json :=
  JObj [("kind", JStr "gridrec"); ("path", JStr "/hmwood/scan_01/gridrec/c.h5")].
Definition three_records_world : world :=
  mock_world (JArr [sino_record; gridrec_record; later_gridrec_record])
             (JArr [JStr "img0.tif"; JStr "img1.tif"]) "II*tiff".

(** A mock portal with no derived dataset and one image. *)
Definition no_derived_world : world :=
  mock_world (JArr []) (JArr [JStr "img0.tif"]) "II*tiff".

(** The source and the destination of the copy for the name [f], as the
    body of [NERSC_RetreiveData] spells them for an account [account], and
    the command that copies one to the other. *)
Definition source_path (archivepath account f : string) : string :=
  (archivepath ++ account ++ "/" ++ f ++ "/raw/" ++ f ++ ".h5")%string.

Definition target_path (destinationpath f : string) : string :=
  (destinationpath ++ f ++ ".h5")%string.

Definition copy_command (archivepath account destinationpath f : string) : string :=
  ("cp " ++ source_path archivepath account f
   ++ " " ++ target_path destinationpath f)%string.

(** The trace once [close] has run from [tr]. *)
Definition after_close (self : SpotSession.t) (tr : trace) : trace :=
  tr ++ [SessionClose; HttpGet (SpotSession.URL_authentication self) []].

(** The trace once the two listing requests have gone out from [tr]. *)
Definition after_listings (fn un : string) (tr : trace) : trace :=
  tr ++ [HttpGet SpotSession.URL_DerivedDatasets (derived_query fn);
         HttpGet (listimages_url fn un) []].

(** A file system holding one text file. *)
Definition one_file_world (path text : string) : world :=
  {| server_get := fun _ _ => inl ConnectionError;
     server_post := fun _ _ => inl ConnectionError;
     typed_password := "";
     files := fun p => if String.eqb p path then Some text else None;
     writable := fun _ => false |}.

(** A line that is empty once the loop of [list_from_txt] has stripped
    it. *)
Definition blank (line : string) : Prop :=
  strip (strip line " ") nl = "".

(** The path of a dataset's raw file under an endpoint. *)
Definition resource_path (username filename : string) : string :=
  (username ++ "/" ++ filename ++ "/raw/" ++ filename ++ ".h5")%string.

(** The first and the last character of a string, if any. *)
Definition first_char (s : string) : option ascii :=
  match s with
  | EmptyString => None
  | String c _ => Some c
  end.

Fixpoint last_char (s : string) : option ascii :=
  match s with
  | EmptyString => None
  | String c EmptyString => Some c
  | String _ rest => last_char rest
  end.

(** A line once the loop of [list_from_txt] has stripped it, and whether
    the loop keeps it. *)
Definition cleaned (line : string) : string :=
  strip (strip line " ") nl.

Definition kept (comment entry : string) : bool :=
  match entry with
  | EmptyString => false
  | String c _ => negb (String.eqb (String c "") comment)
  end.

(** The module's globals with [useraccount] bound as well. *)
Definition globals_with_account (account : string) : list (string * json) :=
  ("useraccount", JStr account) :: Nersc.module_globals.

(** A portal that reports the session as authenticated. *)
Definition authenticated_world : world :=
  {| server_get := fun _ _ =>
       inr {| content := ""; json_body := Some (JObj [("auth", JBool true)]) |};
     server_post := fun _ _ =>
       inr {| content := ""; json_body := Some (JObj [("auth", JBool true)]) |};
     typed_password := "secret";
     files := fun _ => None;
     writable := fun _ => true |}.

(** A mock portal whose first derived record has no path. *)
Definition pathless_world : world :=
  mock_world (JArr [JObj [("kind", JStr "norm")]; gridrec_record])
             (JArr [JStr "img0.tif"]) "II*tiff".

(* ================================================================== *)
(** ** The primitives on small inputs *)

Example strip_suffix : strip "scan.h5" ".h5" = "scan".
Proof. reflexivity. Qed.

Example strip_is_a_character_set : strip "h5cloth" ".h5" = "clot".
Proof. reflexivity. Qed.

Example split_three : split "a/b/c" "/" = ["a"; "b"; "c"].
Proof. reflexivity. Qed.

Example split_nothing : split "" "/" = [""].
Proof. reflexivity. Qed.

Example find_hit : Py.find "x-norm-y" "norm" = 2%Z.
Proof. reflexivity. Qed.

Example find_miss : Py.find "/p1" "norm" = (-1)%Z.
Proof. reflexivity. Qed.

Example getitem_from_the_end : getitem ["a"; "b"; "c"] (-2) = inr "b".
Proof. reflexivity. Qed.

Example getitem_out_of_range : getitem ["a"; "b"; "c"] (-4) = inl IndexError.
Proof. reflexivity. Qed.

Example readlines_keeps_newlines :
  readlines ("a" ++ nl ++ "b")%string = [("a" ++ nl)%string; "b"].
Proof. reflexivity. Qed.

Example iter_content_by_two : iter_content 2 "abcde" = ["ab"; "cd"; "e"].
Proof. reflexivity. Qed.

(* ================================================================== *)
(** ** Lemmas on [strip] *)

Section Strip.
Variable chars : string.

Lemma rstrip_all_in (x : string) :
  all_in chars x = true -> rstrip chars x = "".
Proof.
  induction x as [|c x IH]; simpl; [reflexivity|].
  intros H. apply andb_true_iff in H as [Hc Hx].
  rewrite (IH Hx), Hc. reflexivity.
Qed.

Lemma lstrip_all_in (x : string) :
  all_in chars x = true -> lstrip chars x = "".
Proof.
  induction x as [|c x IH]; simpl; [reflexivity|].
  intros H. apply andb_true_iff in H as [Hc Hx].
  rewrite Hc. exact (IH Hx).
Qed.

Lemma rstrip_app_all_in (a x : string) :
  all_in chars x = true -> rstrip chars (a ++ x) = rstrip chars a.
Proof.
  intros Hx. induction a as [|c a IH]; simpl.
  - apply rstrip_all_in, Hx.
  - rewrite IH. reflexivity.
Qed.

Lemma lstrip_app_all_in (a x : string) :
  all_in chars x = true ->
  lstrip chars (a ++ x) =
  if all_in chars a then "" else (lstrip chars a ++ x)%string.
Proof.
  intros Hx. induction a as [|c a IH]; simpl.
  - apply lstrip_all_in, Hx.
  - destruct (char_in c chars); simpl; [exact IH | reflexivity].
Qed.

(** Appending characters of the set does not change what [strip]
    returns. *)
Lemma strip_app_all_in (a x : string) :
  all_in chars x = true -> strip (a ++ x) chars = strip a chars.
Proof.
  intros Hx. unfold strip. rewrite (lstrip_app_all_in a x Hx).
  destruct (all_in chars a) eqn:Ha.
  - rewrite (lstrip_all_in a Ha). reflexivity.
  - apply rstrip_app_all_in, Hx.
Qed.

(** [strip] leaves alone a string that neither begins nor ends with a
    character of the set. *)
Lemma lstrip_unchanged (c : ascii) (rest : string) :
  char_in c chars = false -> lstrip chars (String c rest) = String c rest.
Proof. intros H. simpl. rewrite H. reflexivity. Qed.

Lemma rstrip_unchanged (init : string) (c : ascii) :
  char_in c chars = false ->
  rstrip chars (init ++ String c "") = (init ++ String c "")%string.
Proof.
  intros H. induction init as [|k init IH]; simpl.
  - rewrite H. reflexivity.
  - rewrite IH. destruct init; reflexivity.
Qed.

Lemma strip_unchanged (first last : ascii) (rest init : string) :
  String first rest = (init ++ String last "")%string ->
  char_in first chars = false -> char_in last chars = false ->
  strip (String first rest) chars = String first rest.
Proof.
  intros Heq Hfirst Hlast. unfold strip.
  rewrite (lstrip_unchanged first rest Hfirst), Heq.
  apply rstrip_unchanged, Hlast.
Qed.

(** Stripping adds no character. *)
Lemma char_in_lstrip (c : ascii) (s : string) :
  char_in c (lstrip chars s) = true -> char_in c s = true.
Proof.
  induction s as [|k s IH]; simpl; [discriminate|].
  destruct (char_in k chars); [|exact (fun H => H)].
  intros H. rewrite (IH H). apply orb_true_r.
Qed.

Lemma char_in_rstrip (c : ascii) (s : string) :
  char_in c (rstrip chars s) = true -> char_in c s = true.
Proof.
  induction s as [|k s IH]; simpl; [discriminate|].
  destruct (rstrip chars s) as [|k' r] eqn:Hr.
  - destruct (char_in k chars); simpl; [discriminate|].
    rewrite orb_false_r. intros ->. reflexivity.
  - cbn [char_in]. intros H. apply orb_true_iff in H as [->|H]; [reflexivity|].
    rewrite (IH H). apply orb_true_r.
Qed.

Lemma char_in_strip (c : ascii) (s : string) :
  char_in c s = false -> char_in c (strip s chars) = false.
Proof.
  intros H. unfold strip.
  destruct (char_in c (rstrip chars (lstrip chars s))) eqn:E; [|reflexivity].
  apply char_in_rstrip, char_in_lstrip in E. congruence.
Qed.

End Strip.

(* ================================================================== *)
(** ** Lemmas on [in], [split] and indexing *)

Lemma append_assoc (a b c : string) :
  ((a ++ b) ++ c = a ++ (b ++ c))%string.
Proof.
  induction a as [|k a IH]; simpl; [reflexivity|].
  rewrite IH. reflexivity.
Qed.

Lemma char_in_app (c : ascii) (a b : string) :
  char_in c (a ++ b) = char_in c a || char_in c b.
Proof.
  induction a as [|k a IH]; simpl; [reflexivity|].
  rewrite IH. apply orb_assoc.
Qed.

(** ["c" in s], for a one-character string, is membership of the
    character. *)
Lemma contains_char (c : ascii) (s : string) :
  contains (String c "") s = char_in c s.
Proof.
  unfold contains, Py.find.
  induction s as [|k s IH]; simpl; [reflexivity|].
  destruct (ascii_dec c k) as [->|Hne].
  - rewrite Ascii.eqb_refl. destruct s; reflexivity.
  - apply Ascii.eqb_neq in Hne. rewrite Hne. simpl.
    rewrite <- IH.
    destruct (find_index s (String c "")); simpl; [|reflexivity].
    destruct n; reflexivity.
Qed.

Lemma split_not_nil (s : string) (sep : ascii) : split s sep <> [].
Proof.
  destruct s as [|c s]; simpl; [discriminate|].
  destruct (Ascii.eqb c sep); [discriminate|].
  destruct (split s sep); discriminate.
Qed.

(** Splitting distributes over a separator. *)
Lemma split_app_sep (a b : string) (sep : ascii) :
  split (a ++ String sep b) sep = split a sep ++ split b sep.
Proof.
  induction a as [|c a IH]; simpl.
  - rewrite Ascii.eqb_refl. reflexivity.
  - destruct (Ascii.eqb c sep); rewrite IH; [reflexivity|].
    pose proof (split_not_nil a sep) as Hne.
    destruct (split a sep); [contradiction|reflexivity].
Qed.

Lemma split_without_sep (s : string) (sep : ascii) :
  char_in sep s = false -> split s sep = [s].
Proof.
  induction s as [|c s IH]; simpl; [reflexivity|].
  intros H. apply orb_false_iff in H as [Hc Hs].
  rewrite Ascii.eqb_sym, Hc, (IH Hs). reflexivity.
Qed.

Lemma getitem_last {A : Type} (l : list A) (a b : A) :
  getitem (l ++ [a; b]) (-1) = inr b.
Proof.
  unfold getitem. rewrite length_app. cbn [List.length Z.ltb Z.compare].
  replace (-1 + Z.of_nat (List.length l + 2))%Z
    with (Z.of_nat (S (List.length l))) by lia.
  replace ((0 <=? Z.of_nat (S (List.length l)))
           && (Z.of_nat (S (List.length l)) <? Z.of_nat (List.length l + 2)))%Z
    with true by (symmetry; apply andb_true_iff; split;
                  [apply Z.leb_le | apply Z.ltb_lt]; lia).
  rewrite Nat2Z.id, nth_error_app2 by lia.
  replace (S (List.length l) - List.length l) with 1 by lia.
  reflexivity.
Qed.

Lemma getitem_before_last {A : Type} (l : list A) (a b : A) :
  getitem (l ++ [a; b]) (-2) = inr a.
Proof.
  unfold getitem. rewrite length_app. cbn [List.length Z.ltb Z.compare].
  replace (-2 + Z.of_nat (List.length l + 2))%Z
    with (Z.of_nat (List.length l)) by lia.
  replace ((0 <=? Z.of_nat (List.length l))
           && (Z.of_nat (List.length l) <? Z.of_nat (List.length l + 2)))%Z
    with true by (symmetry; apply andb_true_iff; split;
                  [apply Z.leb_le | apply Z.ltb_lt]; lia).
  rewrite Nat2Z.id, nth_error_app2 by lia.
  rewrite Nat.sub_diag. reflexivity.
Qed.

(** Indexing a string fails with [IndexError] only. *)
Lemma str_getitem_error (s : string) (i : Z) (e : exn) :
  str_getitem s i = inl e -> e = IndexError.
Proof.
  unfold str_getitem, getitem.
  destruct (_ && _)%bool; [|intros [= <-]; reflexivity].
  destruct (nth_error _ _); [discriminate|intros [= <-]; reflexivity].
Qed.

Lemma str_getitem_empty (i : Z) : str_getitem "" i = inl IndexError.
Proof.
  unfold str_getitem, getitem. simpl.
  destruct (_ && _)%bool; [|reflexivity].
  destruct (Z.to_nat _); reflexivity.
Qed.

(* ================================================================== *)
(** ** formatPath *)

(** C6: for a dataset identifier ending in ".h5", [formatPath] returns the
    same (filename, username) pair as for the identifier without that
    extension, whatever the username argument. *)
Theorem formatPath_h5_extension (self : SpotSession.t) (d : string)
    (username_arg : option string) :
  SpotSession.formatPath self (d ++ ".h5") username_arg =
  SpotSession.formatPath self d username_arg.
Proof.
  unfold SpotSession.formatPath.
  rewrite (strip_app_all_in ".h5" d ".h5" eq_refl).
  reflexivity.
Qed.

(** C8: the filename returned for "cloth" with the explicit username "u" is
    "clot": a trailing "h" went although the name has no ".h5" extension. *)
Theorem formatPath_cloth (self : SpotSession.t) :
  contains "/" "cloth" = false /\
  SpotSession.formatPath self "cloth" (Some "u") = inr ("clot", "u").
Proof. split; reflexivity. Qed.

(** With an explicit username and no separator, the filename is what
    [strip] makes of the dataset: every leading and trailing ".", "h" and
    "5" is gone, extension or not. *)
Lemma formatPath_plain (self : SpotSession.t) (d name : string) :
  name <> "default" -> contains "/" d = false ->
  SpotSession.formatPath self d (Some name) = inr (strip d ".h5", name).
Proof.
  intros Hname Hd. unfold SpotSession.formatPath.
  apply String.eqb_neq in Hname. rewrite Hname.
  rewrite contains_char in *. rewrite (char_in_strip ".h5" "/" d Hd).
  reflexivity.
Qed.

(** The segments of a dataset string whose last two segments are [u] and
    [f]. *)
Lemma split_last_two (pre u f : string) :
  pre = "" \/ (exists p, pre = (p ++ "/")%string) ->
  contains "/" u = false -> contains "/" f = false ->
  exists segs, split (pre ++ u ++ "/" ++ f) "/" = segs ++ [u; f].
Proof.
  intros Hpre Hu Hf. rewrite contains_char in Hu, Hf.
  assert (Huf : split (u ++ "/" ++ f) "/" = [u; f]).
  { change (u ++ "/" ++ f)%string with (u ++ String "/" f)%string.
    rewrite split_app_sep, (split_without_sep u), (split_without_sep f);
      auto. }
  destruct Hpre as [->|[p ->]].
  - exists []. exact Huf.
  - exists (split p "/").
    replace ((p ++ "/") ++ u ++ "/" ++ f)%string
      with (p ++ String "/" (u ++ "/" ++ f))%string
      by (rewrite append_assoc; reflexivity).
    rewrite split_app_sep, Huf. reflexivity.
Qed.

(** C1, as the code has it: with an explicit username other than
    'default', a dataset string that [strip] leaves unchanged and whose
    last two "/"-separated segments are [u] and [f] yields
    (filename = f, username = u); without a username (None or 'default')
    the string is not split: the filename is the whole string and the
    username is the session's. *)
Theorem formatPath_separator (self : SpotSession.t) (pre u f name : string) :
  pre = "" \/ (exists p, pre = (p ++ "/")%string) ->
  contains "/" u = false -> contains "/" f = false ->
  name <> "default" ->
  strip (pre ++ u ++ "/" ++ f) ".h5" = (pre ++ u ++ "/" ++ f)%string ->
  SpotSession.formatPath self (pre ++ u ++ "/" ++ f) (Some name) = inr (f, u)
  /\ SpotSession.formatPath self (pre ++ u ++ "/" ++ f) None
     = inr ((pre ++ u ++ "/" ++ f)%string, SpotSession.spot_username self)
  /\ SpotSession.formatPath self (pre ++ u ++ "/" ++ f) (Some "default")
     = inr ((pre ++ u ++ "/" ++ f)%string, SpotSession.spot_username self).
Proof.
  intros Hpre Hu Hf Hname Hstrip.
  unfold SpotSession.formatPath. rewrite Hstrip.
  split; [|split; reflexivity].
  apply String.eqb_neq in Hname. rewrite Hname.
  assert (Hin : contains "/" (pre ++ u ++ "/" ++ f) = true).
  { rewrite contains_char, !char_in_app. simpl.
    rewrite !orb_true_r. reflexivity. }
  rewrite Hin.
  destruct (split_last_two pre u f Hpre Hu Hf) as [segs ->].
  rewrite getitem_before_last, getitem_last. reflexivity.
Qed.

Lemma formatPath_separator_witness :
  SpotSession.formatPath session0 "2013/hmwood/scan_01" (Some "guest")
    = inr ("scan_01", "hmwood")
  /\ SpotSession.formatPath session0 "2013/hmwood/scan_01" None
     = inr ("2013/hmwood/scan_01", "alvarorh")
  /\ SpotSession.formatPath session0 "2013/hmwood/scan_01" (Some "default")
     = inr ("2013/hmwood/scan_01", "alvarorh").
Proof.
  apply (formatPath_separator session0 "2013/" "hmwood" "scan_01" "guest").
  - right. exists "2013". reflexivity.
  - reflexivity.
  - reflexivity.
  - discriminate.
  - reflexivity.
Defined.

(** C1 fails as stated: for "u/f" with the username omitted (None) the
    result is not (filename = "f", username = "u"). *)
Lemma formatPath_separator_no_username :
  SpotSession.formatPath session0 "u/f" None = inr ("u/f", "alvarorh")
  /\ SpotSession.formatPath session0 "u/f" None <> inr ("f", "u").
Proof. split; [reflexivity | discriminate]. Qed.

Lemma split_two_segments (s : string) (sep : ascii) :
  char_in sep s = true -> 2 <= List.length (split s sep).
Proof.
  induction s as [|c s IH]; simpl; [discriminate|].
  rewrite Ascii.eqb_sym. destruct (Ascii.eqb c sep); simpl.
  - intros _. pose proof (split_not_nil s sep).
    destruct (split s sep); [contradiction | simpl; lia].
  - intros H. specialize (IH H).
    destruct (split s sep); simpl in *; lia.
Qed.

Lemma getitem_in_range {A : Type} (l : list A) (i : Z) :
  (- Z.of_nat (List.length l) <= i < Z.of_nat (List.length l))%Z ->
  exists a, getitem l i = inr a.
Proof.
  intros Hi. unfold getitem.
  set (n := Z.of_nat (List.length l)) in *.
  set (j := if (i <? 0)%Z then (i + n)%Z else i).
  assert (Hj : (0 <= j < n)%Z).
  { subst j. destruct (Z.ltb_spec i 0); lia. }
  replace ((0 <=? j) && (j <? n))%Z with true
    by (symmetry; apply andb_true_iff; split;
        [apply Z.leb_le | apply Z.ltb_lt]; lia).
  destruct (nth_error l (Z.to_nat j)) eqn:Hnth; [eauto|].
  apply nth_error_None in Hnth. subst n. lia.
Qed.

(** [formatPath] never fails: when it indexes the segments from the end,
    there are at least two of them. *)
Lemma formatPath_total (self : SpotSession.t) (d : string) (u : option string) :
  exists fn un, SpotSession.formatPath self d u = inr (fn, un).
Proof.
  unfold SpotSession.formatPath.
  destruct u as [name|]; [|eauto].
  destruct (String.eqb name "default"); [eauto|].
  destruct (contains "/" (strip d ".h5")) eqn:Hin; [|eauto].
  rewrite contains_char in Hin. apply split_two_segments in Hin.
  destruct (getitem_in_range (split (strip d ".h5") "/") (-2)) as [a ->]; [lia|].
  destruct (getitem_in_range (split (strip d ".h5") "/") (-1)) as [b ->]; [lia|].
  simpl. eauto.
Qed.

(* ================================================================== *)
(** ** Running the monad *)

(** [m] then [k], when [m] is pure. *)
Lemma bind_lift {A B : Type} (r : result A) (k : A -> M B) (tr : trace) :
  (x <- lift r ;; k x) tr =
  match r with
  | inr a => k a tr
  | inl e => (inl e, tr)
  end.
Proof. unfold bind, lift. destruct r; reflexivity. Qed.

Lemma bind_emit {B : Type} (e : event) (k : unit -> M B) (tr : trace) :
  (x <- emit e ;; k x) tr = k tt (tr ++ [e]).
Proof. reflexivity. Qed.

Lemma bind_run {A B : Type} (m : M A) (k : A -> M B) (tr : trace) :
  (x <- m ;; k x) tr =
  match fst (m tr) with
  | inr a => k a (snd (m tr))
  | inl e => (inl e, snd (m tr))
  end.
Proof. unfold bind. destruct (m tr) as [[e|a] tr']; reflexivity. Qed.

(* ================================================================== *)
(** ** close and the query methods *)

Lemma close_trace (w : world) (self : SpotSession.t) (tr : trace) :
  snd (SpotSession.close w self tr) =
  tr ++ [SessionClose; HttpGet (SpotSession.URL_authentication self) []].
Proof.
  unfold SpotSession.close, bind, emit, session_get, r_json, ret, raise.
  rewrite <- app_assoc. simpl.
  destruct (server_get w _ _) as [e|resp]; [reflexivity|].
  destruct (json_body resp); reflexivity.
Qed.

(** A method whose body is one GET followed by [r.json()]. *)
Lemma get_json_run (w : world) (url : string) (query : params) (tr : trace) :
  (r <- session_get w url query ;; r_json r) tr =
  (decoded (server_get w url query), tr ++ [HttpGet url query]).
Proof.
  unfold bind, session_get, r_json, decoded, ret, raise.
  destruct (server_get w url query) as [e|resp]; [reflexivity|].
  destruct (json_body resp); reflexivity.
Qed.

(** [close] in full: the session is closed, a GET goes to the
    authentication URL, and what comes back, decoded, is the result. *)
Lemma close_run (w : world) (self : SpotSession.t) (tr : trace) :
  SpotSession.close w self tr =
  (decoded (server_get w (SpotSession.URL_authentication self) []),
   after_close self tr).
Proof.
  unfold SpotSession.close. rewrite bind_emit, get_json_run.
  unfold after_close. rewrite <- app_assoc. reflexivity.
Qed.

(** C2, as the code has it: [close] closes the requests session, then
    sends a GET to the authentication URL and returns the decoded answer
    to it (or the transport or decoding error of that request); no closed
    state is kept.  Each query method run afterwards sends its GET as on
    an open session and returns what the portal answers. *)
Theorem queries_after_close (w : world) (self : SpotSession.t) (tr : trace)
    (query sortterm sorttype dataset username : string) (limitnum skipnum : Z)
    (username_arg : option string) :
  SpotSession.close w self tr =
  (decoded (server_get w (SpotSession.URL_authentication self) []),
   after_close self tr)
  /\ SpotSession.search w self query limitnum skipnum sortterm sorttype
       (after_close self tr) =
     (decoded (server_get w SpotSession.URL_search
                 [("limitnum", JNum limitnum); ("skipnum", JNum skipnum);
                  ("sortterm", JStr sortterm); ("sorttype", JStr sorttype);
                  ("search", JStr query)]),
      after_close self tr ++
      [HttpGet SpotSession.URL_search
         [("limitnum", JNum limitnum); ("skipnum", JNum skipnum);
          ("sortterm", JStr sortterm); ("sorttype", JStr sorttype);
          ("search", JStr query)]])
  /\ SpotSession.derived_datasets w self dataset (after_close self tr) =
     (decoded (server_get w SpotSession.URL_DerivedDatasets (derived_query dataset)),
      after_close self tr ++
      [HttpGet SpotSession.URL_DerivedDatasets (derived_query dataset)])
  /\ SpotSession.list_images w self dataset username (after_close self tr) =
     (decoded (server_get w (listimages_url dataset username) []),
      after_close self tr ++ [HttpGet (listimages_url dataset username) []])
  /\ (exists fn un,
        SpotSession.formatPath self dataset username_arg = inr (fn, un) /\
        SpotSession.attributes w self dataset username_arg (after_close self tr) =
        (decoded (server_get w
                    (SpotSession.URL_attributes ++ un ++ "/" ++ fn ++ "/raw/"
                     ++ fn ++ ".h5") [("group", JStr "/")]),
         after_close self tr ++
         [HttpGet (SpotSession.URL_attributes ++ un ++ "/" ++ fn ++ "/raw/"
                   ++ fn ++ ".h5") [("group", JStr "/")]])).
Proof.
  split; [apply close_run|].
  split; [apply get_json_run|].
  split; [apply get_json_run|].
  split; [apply get_json_run|].
  destruct (formatPath_total self dataset username_arg) as (fn & un & Hfp).
  exists fn, un. split; [exact Hfp|].
  unfold SpotSession.attributes.
  rewrite bind_lift, Hfp.
  apply get_json_run.
Qed.

(** C2 fails as stated: on a portal that answers, [search] run after
    [close] is not rejected; it sends its GET and returns the answer. *)
Lemma search_after_close_not_rejected :
  fst (SpotSession.search_default empty_list_world session0 "end_station=bl832"
         (after_close session0 [])) = inr (JArr [])
  /\ requested (snd (SpotSession.search_default empty_list_world session0
                       "end_station=bl832" (after_close session0 []))) =
     ["https://portal-auth.nersc.gov/als/auth";
      "https://portal-auth.nersc.gov/als/hdf/search"]
  /\ ~ rejected_after_close empty_list_world session0
         (SpotSession.search_default empty_list_world session0 "end_station=bl832")
         [].
Proof.
  split; [reflexivity|]. split; [reflexivity|].
  intros [H _]. discriminate H.
Qed.

(* ================================================================== *)
(** ** download_image and download_URLS *)

Lemma derived_datasets_run (w : world) (self : SpotSession.t) (fn : string)
    (tr : trace) :
  SpotSession.derived_datasets w self fn tr =
  (decoded (server_get w SpotSession.URL_DerivedDatasets (derived_query fn)),
   tr ++ [HttpGet SpotSession.URL_DerivedDatasets (derived_query fn)]).
Proof. apply get_json_run. Qed.

Lemma list_images_run (w : world) (self : SpotSession.t) (fn un : string)
    (tr : trace) :
  SpotSession.list_images w self fn un tr =
  (decoded (server_get w (listimages_url fn un) []),
   tr ++ [HttpGet (listimages_url fn un) []]).
Proof. apply get_json_run. Qed.

Lemma select_path_empty (kind : string) :
  SpotSession.select_path (JArr []) kind = inr None.
Proof. reflexivity. Qed.

(** C3: when [derived_datasets] returns the empty list, [download_image]
    and [download_URLS] both end in an exception, after the two listing
    requests and before any download request: no URL is built from the
    unassigned [path]. *)
Theorem downloads_fail_without_derived (w : world) (self : SpotSession.t)
    (d kind downloadPath downloadName fn un : string) (u : option string)
    (number : Z) (tr : trace) :
  SpotSession.formatPath self d u = inr (fn, un) ->
  fst (SpotSession.derived_datasets w self fn tr) = inr (JArr []) ->
  (is_error (fst (SpotSession.download_image w self d u kind number
                    downloadPath downloadName tr)) = true
   /\ snd (SpotSession.download_image w self d u kind number
             downloadPath downloadName tr) = after_listings fn un tr)
  /\ (is_error (fst (SpotSession.download_URLS w self d u kind number tr)) = true
      /\ snd (SpotSession.download_URLS w self d u kind number tr)
         = after_listings fn un tr).
Proof.
  intros Hfp Hd.
  assert (Hafter : (tr ++ [HttpGet SpotSession.URL_DerivedDatasets (derived_query fn)])
                   ++ [HttpGet (listimages_url fn un) []] = after_listings fn un tr).
  { unfold after_listings. rewrite <- app_assoc. reflexivity. }
  pose proof (derived_datasets_run w self fn tr) as Hrun.
  rewrite Hrun in Hd. cbn [fst] in Hd.
  split.
  - unfold SpotSession.download_image.
    rewrite bind_lift, Hfp. cbv beta iota.
    rewrite bind_run, Hrun. cbn [fst snd]. rewrite Hd.
    rewrite bind_lift, select_path_empty.
    rewrite bind_run, list_images_run. cbn [fst snd]. rewrite Hafter.
    destruct (decoded (server_get w (listimages_url fn un) [])) as [e|image_list];
      [split; reflexivity|].
    rewrite bind_lift.
    destruct (item image_list number) as [e|image]; [split; reflexivity|].
    rewrite bind_lift.
    destruct (str_getitem _ _) as [e|last_char]; [split; reflexivity|].
    rewrite bind_lift. split; reflexivity.
  - unfold SpotSession.download_URLS.
    rewrite bind_lift, Hfp. cbv beta iota.
    rewrite bind_run, Hrun. cbn [fst snd]. rewrite Hd.
    rewrite bind_lift, select_path_empty.
    rewrite bind_run, list_images_run. cbn [fst snd]. rewrite Hafter.
    destruct (decoded (server_get w (listimages_url fn un) [])) as [e|image_list];
      [split; reflexivity|].
    rewrite bind_lift.
    destruct (item image_list number) as [e|image]; [split; reflexivity|].
    rewrite bind_lift. split; reflexivity.
Qed.

Lemma downloads_fail_without_derived_witness :
  (is_error (fst (SpotSession.download_image no_derived_world session0 "scan_01"
                    (Some "hmwood") "norm" 0 "default" "default" [])) = true
   /\ snd (SpotSession.download_image no_derived_world session0 "scan_01"
             (Some "hmwood") "norm" 0 "default" "default" [])
      = after_listings "scan_01" "hmwood" [])
  /\ (is_error (fst (SpotSession.download_URLS no_derived_world session0 "scan_01"
                       (Some "hmwood") "norm" 0 [])) = true
      /\ snd (SpotSession.download_URLS no_derived_world session0 "scan_01"
                (Some "hmwood") "norm" 0 [])
         = after_listings "scan_01" "hmwood" []).
Proof.
  apply (downloads_fail_without_derived no_derived_world session0 "scan_01" "norm"
           "default" "default" "scan_01" "hmwood" (Some "hmwood") 0 []);
    reflexivity.
Defined.

Example download_image_without_derived :
  SpotSession.download_image no_derived_world session0 "scan_01" (Some "hmwood")
    "norm" 0 "default" "default" [] =
  (inl (UnboundLocalError "path"),
   [HttpGet SpotSession.URL_DerivedDatasets [("dataset", JStr "scan_01")];
    HttpGet "https://portal-auth.nersc.gov/als/hdf/listimages/als/bl832/hmwood/scan_01/raw/scan_01.h5" []]).
Proof. reflexivity. Qed.

Example download_URLS_without_derived :
  SpotSession.download_URLS no_derived_world session0 "scan_01" (Some "hmwood")
    "norm" 0 [] =
  (inl (UnboundLocalError "path"),
   [HttpGet SpotSession.URL_DerivedDatasets [("dataset", JStr "scan_01")];
    HttpGet "https://portal-auth.nersc.gov/als/hdf/listimages/als/bl832/hmwood/scan_01/raw/scan_01.h5" []]).
Proof. reflexivity. Qed.

(** The exception in the usual case: once the image is found and the
    directory is not empty, it is the read of the unassigned [path]. *)
Lemma download_image_unbound_path (w : world) (self : SpotSession.t)
    (d kind downloadPath downloadName fn un dest : string) (u : option string)
    (number : Z) (tr : trace) (images image : json) :
  SpotSession.formatPath self d u = inr (fn, un) ->
  fst (SpotSession.derived_datasets w self fn tr) = inr (JArr []) ->
  fst (SpotSession.list_images w self fn un tr) = inr images ->
  item images number = inr image ->
  destination downloadPath downloadName fn = inr dest ->
  fst (SpotSession.download_image w self d u kind number
         downloadPath downloadName tr) = inl (UnboundLocalError "path").
Proof.
  intros Hfp Hd Hl Hi Hdest.
  rewrite derived_datasets_run in Hd. rewrite list_images_run in Hl.
  cbn [fst] in Hd, Hl.
  unfold SpotSession.download_image.
  rewrite bind_lift, Hfp. cbv beta iota.
  rewrite bind_run, derived_datasets_run. cbn [fst snd]. rewrite Hd.
  rewrite bind_lift, select_path_empty.
  rewrite bind_run, list_images_run. cbn [fst snd]. rewrite Hl.
  rewrite bind_lift, Hi. rewrite bind_lift.
  unfold destination, rbind in Hdest.
  destruct (str_getitem _ _) as [e|last_char]; [discriminate|].
  rewrite bind_lift. reflexivity.
Qed.

Lemma getitem_nat {A : Type} (l : list A) (n : nat) (a : A) :
  nth_error l n = Some a -> getitem l (Z.of_nat n) = inr a.
Proof.
  intros Hn. unfold getitem.
  assert (Hlt : n < List.length l) by (apply nth_error_Some; congruence).
  replace (Z.of_nat n <? 0)%Z with false by (symmetry; apply Z.ltb_ge; lia).
  replace ((0 <=? Z.of_nat n) && (Z.of_nat n <? Z.of_nat (List.length l)))%Z
    with true by (symmetry; apply andb_true_iff; split;
                  [apply Z.leb_le | apply Z.ltb_lt]; lia).
  rewrite Nat2Z.id, Hn. reflexivity.
Qed.

(** The scan over records that all miss: it runs to the end, and [path]
    is left bound to the path of the last record. *)
Lemma scan_paths_all_miss (kind plast : string) (front : list json)
    (lastrec : json) :
  Forall (misses kind) (front ++ [lastrec]) ->
  has_path lastrec plast ->
  forall (k a : nat) (cur : option json),
    a + k = S (List.length front) ->
    SpotSession.scan_paths (JArr (front ++ [lastrec])) kind
      (List.map Z.of_nat (seq a k)) cur =
    inr (match k with O => cur | S _ => Some (JStr plast) end).
Proof.
  intros Hall Hlast. induction k as [|k IH]; intros a cur Hak.
  - reflexivity.
  - cbn [seq List.map SpotSession.scan_paths].
    assert (Hlt : a < List.length (front ++ [lastrec]))
      by (rewrite length_app; simpl; lia).
    destruct (nth_error (front ++ [lastrec]) a) as [r|] eqn:Hr;
      [|apply nth_error_None in Hr; lia].
    unfold item. rewrite (getitem_nat _ _ _ Hr). cbn [rbind].
    pose proof (proj1 (Forall_forall _ _) Hall r (nth_error_In _ _ Hr))
      as (p & Hp & Hmiss).
    unfold has_path in Hp. rewrite Hp. cbn [rbind Json.find].
    unfold contains in Hmiss. rewrite Hmiss.
    rewrite IH by lia.
    destruct k as [|k]; [|reflexivity].
    assert (a = List.length front) by lia. subst a.
    rewrite nth_error_app2, Nat.sub_diag in Hr by lia.
    injection Hr as <-. unfold has_path in Hlast. congruence.
Qed.

Lemma select_path_all_miss (kind plast : string) (front : list json)
    (lastrec : json) :
  Forall (misses kind) (front ++ [lastrec]) ->
  has_path lastrec plast ->
  SpotSession.select_path (JArr (front ++ [lastrec])) kind
  = inr (Some (JStr plast)).
Proof.
  intros Hall Hlast. unfold SpotSession.select_path, len, rbind, range.
  rewrite (scan_paths_all_miss kind plast front lastrec Hall Hlast)
    by (rewrite length_app; simpl; lia).
  rewrite length_app, Nat.add_comm. reflexivity.
Qed.

(* ------------------------------------------------------------------ *)
(** *** Writing the payload *)

Lemma append_not_empty (a : string) (c : ascii) :
  (a ++ String c "")%string <> "".
Proof. destruct a; discriminate. Qed.

Lemma iter_content_from_nonempty (size : nat) (body : string) :
  forall (room : nat) (cur : string),
    (cur = "" -> room <> 0) ->
    Forall (fun chunk => chunk <> "") (iter_content_from size room cur body).
Proof.
  induction body as [|c body IH]; intros room cur Hcur; simpl.
  - destruct cur; constructor; [discriminate | constructor].
  - destruct room as [|room].
    + constructor.
      * intros ->. apply Hcur; reflexivity.
      * apply IH. discriminate.
    + apply IH. intros H. destruct (append_not_empty cur c H).
Qed.

Lemma joined_iter_content_from (size : nat) (body : string) :
  forall (room : nat) (cur : string),
    joined (iter_content_from size room cur body) = (cur ++ body)%string.
Proof.
  induction body as [|c body IH]; intros room cur; simpl.
  - destruct cur; reflexivity.
  - destruct room as [|room].
    + change (joined (cur :: ?l)) with (cur ++ joined l)%string.
      rewrite IH. reflexivity.
    + rewrite IH, append_assoc. reflexivity.
Qed.

(** The chunks of [iter_content] put together are the body. *)
Lemma joined_iter_content (size : nat) (body : string) :
  joined (iter_content size body) = body.
Proof. apply joined_iter_content_from. Qed.

Lemma write_chunks_run (path : string) (chunks : list string) :
  Forall (fun chunk => chunk <> "") chunks ->
  forall tr : trace,
    write_chunks path chunks tr =
    (inr tt, tr ++ List.map (FileWrite path) chunks).
Proof.
  induction 1 as [|chunk chunks Hne _ IH]; intros tr; simpl.
  - rewrite app_nil_r. reflexivity.
  - destruct chunk; [contradiction|].
    unfold bind, emit. rewrite IH, <- app_assoc. reflexivity.
Qed.

(** [download_image] once the derived path and the image are found: the
    three requests, then the file. *)
Lemma download_image_resolved (w : world) (self : SpotSession.t)
    (d kind downloadPath downloadName fn un p img dest : string)
    (u : option string) (number : Z) (tr : trace) (data images : json)
    (resp : response) :
  SpotSession.formatPath self d u = inr (fn, un) ->
  fst (SpotSession.derived_datasets w self fn tr) = inr data ->
  SpotSession.select_path data kind = inr (Some (JStr p)) ->
  fst (SpotSession.list_images w self fn un tr) = inr images ->
  item images number = inr (JStr img) ->
  destination downloadPath downloadName fn = inr dest ->
  server_get w (SpotSession.URL_rawdata ++ p) (group_query img) = inr resp ->
  writable w (dest ++ ".tif") = true ->
  SpotSession.download_image w self d u kind number downloadPath downloadName tr =
  (inr (dest ++ ".tif")%string,
   tr ++ [HttpGet SpotSession.URL_DerivedDatasets (derived_query fn);
          HttpGet (listimages_url fn un) [];
          HttpGet (SpotSession.URL_rawdata ++ p) (group_query img);
          FileOpenWrite (dest ++ ".tif")]
      ++ List.map (FileWrite (dest ++ ".tif")) (iter_content 512 (content resp))
      ++ [Stdout [JStr ("download  complete: " ++ dest ++ ".tif")%string]]).
Proof.
  intros Hfp Hd Hsel Hl Hi Hdest Hraw Hw.
  rewrite derived_datasets_run in Hd. rewrite list_images_run in Hl.
  cbn [fst] in Hd, Hl.
  unfold SpotSession.download_image.
  rewrite bind_lift, Hfp. cbv beta iota.
  rewrite bind_run, derived_datasets_run. cbn [fst snd]. rewrite Hd.
  rewrite bind_lift, Hsel.
  rewrite bind_run, list_images_run. cbn [fst snd]. rewrite Hl.
  rewrite bind_lift, Hi. rewrite bind_lift.
  unfold destination, rbind in Hdest.
  destruct (str_getitem _ _) as [e|last_char]; [discriminate|].
  injection Hdest as Hdest.
  rewrite !bind_lift. cbn [load_local add].
  rewrite !bind_lift.
  change [("group", JStr ("/" ++ img)%string)] with (group_query img).
  unfold bind at 1. unfold session_get at 1. rewrite Hraw.
  rewrite <- append_assoc, Hdest.
  unfold bind at 1. unfold open_write at 1. rewrite Hw.
  unfold bind at 1.
  rewrite write_chunks_run
    by (apply iter_content_from_nonempty; discriminate).
  unfold bind, emit, ret.
  f_equal. rewrite <- !app_assoc. reflexivity.
Qed.

(** [download_URLS] once the derived path and the image are found. *)
Lemma download_URLS_resolved (w : world) (self : SpotSession.t)
    (d kind fn un p img : string) (u : option string) (number : Z)
    (tr : trace) (data images : json) :
  SpotSession.formatPath self d u = inr (fn, un) ->
  fst (SpotSession.derived_datasets w self fn tr) = inr data ->
  SpotSession.select_path data kind = inr (Some (JStr p)) ->
  fst (SpotSession.list_images w self fn un tr) = inr images ->
  item images number = inr (JStr img) ->
  SpotSession.download_URLS w self d u kind number tr =
  (decoded (server_get w (SpotSession.URL_image ++ p) (group_query img)),
   tr ++ [HttpGet SpotSession.URL_DerivedDatasets (derived_query fn);
          HttpGet (listimages_url fn un) [];
          HttpGet (SpotSession.URL_image ++ p) (group_query img)]).
Proof.
  intros Hfp Hd Hsel Hl Hi.
  rewrite derived_datasets_run in Hd. rewrite list_images_run in Hl.
  cbn [fst] in Hd, Hl.
  unfold SpotSession.download_URLS.
  rewrite bind_lift, Hfp. cbv beta iota.
  rewrite bind_run, derived_datasets_run. cbn [fst snd]. rewrite Hd.
  rewrite bind_lift, Hsel.
  rewrite bind_run, list_images_run. cbn [fst snd]. rewrite Hl.
  rewrite bind_lift, Hi. rewrite !bind_lift. cbn [load_local add].
  rewrite !bind_lift.
  change [("group", JStr ("/" ++ img)%string)] with (group_query img).
  rewrite get_json_run. rewrite <- !app_assoc. reflexivity.
Qed.

(** C7: with the one derived record {kind: "norm", path: "/p1"} and the
    image list ["img0.tif", "img1.tif"], [download_image(d, u, "norm", 1,
    dir, name)] sends its download GET to the rawdata endpoint followed by
    "/p1" with group "/img1.tif", and writes the response body, chunk by
    chunk, to the destination followed by ".tif", which it returns. *)
Theorem download_image_scenario (w : world) (self : SpotSession.t)
    (d downloadPath downloadName fn un dest : string) (u : option string)
    (tr : trace) (resp : response) :
  SpotSession.formatPath self d u = inr (fn, un) ->
  fst (SpotSession.derived_datasets w self fn tr)
    = inr (JArr [JObj [("kind", JStr "norm"); ("path", JStr "/p1")]]) ->
  fst (SpotSession.list_images w self fn un tr)
    = inr (JArr [JStr "img0.tif"; JStr "img1.tif"]) ->
  destination downloadPath downloadName fn = inr dest ->
  server_get w "https://portal-auth.nersc.gov/als/hdf/rawdata/p1"
             [("group", JStr "/img1.tif")] = inr resp ->
  writable w (dest ++ ".tif") = true ->
  SpotSession.download_image w self d u "norm" 1 downloadPath downloadName tr =
  (inr (dest ++ ".tif")%string,
   tr ++ [HttpGet SpotSession.URL_DerivedDatasets (derived_query fn);
          HttpGet (listimages_url fn un) [];
          HttpGet "https://portal-auth.nersc.gov/als/hdf/rawdata/p1"
                  [("group", JStr "/img1.tif")];
          FileOpenWrite (dest ++ ".tif")]
      ++ List.map (FileWrite (dest ++ ".tif")) (iter_content 512 (content resp))
      ++ [Stdout [JStr ("download  complete: " ++ dest ++ ".tif")%string]])
  /\ joined (iter_content 512 (content resp)) = content resp.
Proof.
  intros Hfp Hd Hl Hdest Hraw Hw.
  split; [|apply joined_iter_content].
  apply (download_image_resolved w self d "norm" downloadPath downloadName
           fn un "/p1" "img1.tif" dest u 1 tr _ _ resp Hfp Hd eq_refl Hl eq_refl
           Hdest Hraw Hw).
Qed.

Lemma download_image_scenario_witness :
  SpotSession.download_image scenario_world session0 "scan_01.h5" (Some "hmwood")
    "norm" 1 "/tmp/out" "slice" [] =
  (inr "/tmp/out/slice.tif",
   [HttpGet SpotSession.URL_DerivedDatasets [("dataset", JStr "scan_01")];
    HttpGet "https://portal-auth.nersc.gov/als/hdf/listimages/als/bl832/hmwood/scan_01/raw/scan_01.h5" [];
    HttpGet "https://portal-auth.nersc.gov/als/hdf/rawdata/p1"
            [("group", JStr "/img1.tif")];
    FileOpenWrite "/tmp/out/slice.tif";
    FileWrite "/tmp/out/slice.tif" "II*tiff";
    Stdout [JStr "download  complete: /tmp/out/slice.tif"]])
  /\ joined (iter_content 512 "II*tiff") = "II*tiff".
Proof.
  apply (download_image_scenario scenario_world session0 "scan_01.h5" "/tmp/out"
           "slice" "scan_01" "hmwood" "/tmp/out/slice" (Some "hmwood") []
           {| content := "II*tiff"; json_body := None |});
    reflexivity.
Defined.

(** C9: when the derived-dataset list is not empty and no record's path
    contains the kind, both methods go on with the path of the last
    record: the download request is built from it and nothing is
    raised on account of the missing match. *)
Theorem downloads_use_last_path (w : world) (self : SpotSession.t)
    (d kind downloadPath downloadName fn un plast img dest : string)
    (u : option string) (number : Z) (tr : trace)
    (front : list json) (lastrec images : json) (resp : response) :
  SpotSession.formatPath self d u = inr (fn, un) ->
  fst (SpotSession.derived_datasets w self fn tr)
    = inr (JArr (front ++ [lastrec])) ->
  Forall (misses kind) (front ++ [lastrec]) ->
  has_path lastrec plast ->
  fst (SpotSession.list_images w self fn un tr) = inr images ->
  item images number = inr (JStr img) ->
  destination downloadPath downloadName fn = inr dest ->
  server_get w (SpotSession.URL_rawdata ++ plast) (group_query img) = inr resp ->
  writable w (dest ++ ".tif") = true ->
  SpotSession.download_image w self d u kind number downloadPath downloadName tr =
  (inr (dest ++ ".tif")%string,
   tr ++ [HttpGet SpotSession.URL_DerivedDatasets (derived_query fn);
          HttpGet (listimages_url fn un) [];
          HttpGet (SpotSession.URL_rawdata ++ plast) (group_query img);
          FileOpenWrite (dest ++ ".tif")]
      ++ List.map (FileWrite (dest ++ ".tif")) (iter_content 512 (content resp))
      ++ [Stdout [JStr ("download  complete: " ++ dest ++ ".tif")%string]])
  /\ SpotSession.download_URLS w self d u kind number tr =
     (decoded (server_get w (SpotSession.URL_image ++ plast) (group_query img)),
      tr ++ [HttpGet SpotSession.URL_DerivedDatasets (derived_query fn);
             HttpGet (listimages_url fn un) [];
             HttpGet (SpotSession.URL_image ++ plast) (group_query img)]).
Proof.
  intros Hfp Hd Hall Hlast Hl Hi Hdest Hraw Hw.
  pose proof (select_path_all_miss kind plast front lastrec Hall Hlast) as Hsel.
  split.
  - exact (download_image_resolved w self d kind downloadPath downloadName
             fn un plast img dest u number tr _ _ resp
             Hfp Hd Hsel Hl Hi Hdest Hraw Hw).
  - exact (download_URLS_resolved w self d kind fn un plast img u number tr
             _ _ Hfp Hd Hsel Hl Hi).
Qed.

Lemma downloads_use_last_path_witness :
  SpotSession.download_image two_records_world session0 "scan_01" (Some "hmwood")
    "norm" 0 "default" "default" [] =
  (inr "./scan_01.tif",
   [HttpGet SpotSession.URL_DerivedDatasets [("dataset", JStr "scan_01")];
    HttpGet "https://portal-auth.nersc.gov/als/hdf/listimages/als/bl832/hmwood/scan_01/raw/scan_01.h5" [];
    HttpGet "https://portal-auth.nersc.gov/als/hdf/rawdata/hmwood/scan_01/gridrec/b.h5"
            [("group", JStr "/img0.tif")];
    FileOpenWrite "./scan_01.tif";
    FileWrite "./scan_01.tif" "II*tiff";
    Stdout [JStr "download  complete: ./scan_01.tif"]])
  /\ SpotSession.download_URLS two_records_world session0 "scan_01" (Some "hmwood")
       "norm" 0 [] =
     (inr (JObj [("url", JStr "https://portal-auth.nersc.gov/als/hdf/image/hmwood/scan_01/gridrec/b.h5")]),
      [HttpGet SpotSession.URL_DerivedDatasets [("dataset", JStr "scan_01")];
       HttpGet "https://portal-auth.nersc.gov/als/hdf/listimages/als/bl832/hmwood/scan_01/raw/scan_01.h5" [];
       HttpGet "https://portal-auth.nersc.gov/als/hdf/image/hmwood/scan_01/gridrec/b.h5"
               [("group", JStr "/img0.tif")]]).
Proof.
  apply (downloads_use_last_path two_records_world session0 "scan_01" "norm"
           "default" "default" "scan_01" "hmwood" "/hmwood/scan_01/gridrec/b.h5"
           "img0.tif" "./scan_01" (Some "hmwood") 0 [] [sino_record] gridrec_record
           (JArr [JStr "img0.tif"]) {| content := "II*tiff"; json_body := None |}).
  - reflexivity.
  - reflexivity.
  - repeat constructor.
    + exists "/hmwood/scan_01/sino/a.h5". split; reflexivity.
    + exists "/hmwood/scan_01/gridrec/b.h5". split; reflexivity.
  - reflexivity.
  - reflexivity.
  - reflexivity.
  - reflexivity.
  - reflexivity.
  - reflexivity.
Defined.

(* ================================================================== *)
(** ** list_from_txt *)

(** C5: on the text "a\n#b\n c \n" with comment prefix "#" the function
    returns ["a", "c "]: the third line keeps its trailing space, because
    the spaces are stripped while the newline still ends the line.  So the
    result is not ["a", "c"]. *)
Theorem list_from_txt_example :
  fst (Nersc.list_from_txt
         (one_file_world "files.txt" ("a" ++ nl ++ "#b" ++ nl ++ " c " ++ nl))
         "files.txt" "#" [])
  = inr ["a"; "c "]
  /\ fst (Nersc.list_from_txt
            (one_file_world "files.txt" ("a" ++ nl ++ "#b" ++ nl ++ " c " ++ nl))
            "files.txt" "#" [])
     <> inr ["a"; "c"].
Proof. split; [reflexivity | discriminate]. Qed.

Lemma keep_lines_blank (comment : string) (data : list string) (line : string) :
  In line data -> blank line ->
  forall fileList, Nersc.keep_lines data comment fileList = inl IndexError.
Proof.
  intros Hin Hblank. induction data as [|l data IH]; [destruct Hin|].
  intros fileList. cbn [Nersc.keep_lines].
  destruct (str_getitem (strip (strip l " ") nl) 0) as [e|first] eqn:Hfirst.
  - apply str_getitem_error in Hfirst. subst e. reflexivity.
  - cbn [rbind]. destruct Hin as [->|Hin].
    + unfold blank in Hblank. rewrite Hblank, str_getitem_empty in Hfirst.
      discriminate.
    + destruct (negb (String.eqb first comment)); apply IH, Hin.
Qed.

(** C10: when the file has a blank line, one that is empty after the
    spaces and then the newlines are stripped, [list_from_txt] fails with
    [IndexError] on the test of the first character. *)
Theorem list_from_txt_blank_line (w : world) (TextFilePath comment text line : string)
    (tr : trace) :
  contains ".py" TextFilePath = false ->
  files w TextFilePath = Some text ->
  In line (readlines text) ->
  blank line ->
  Nersc.list_from_txt w TextFilePath comment tr =
  (inl IndexError, tr ++ [FileOpenRead TextFilePath]).
Proof.
  intros Hpy Hfile Hin Hblank. unfold Nersc.list_from_txt. rewrite Hpy.
  unfold bind, open_readlines, lift. rewrite Hfile.
  rewrite (keep_lines_blank comment _ line Hin Hblank). reflexivity.
Qed.

Lemma list_from_txt_blank_line_witness :
  Nersc.list_from_txt (one_file_world "files.txt" ("a" ++ nl ++ nl ++ "b" ++ nl))
    "files.txt" "#" [] =
  (inl IndexError, [FileOpenRead "files.txt"]).
Proof.
  apply (list_from_txt_blank_line
           (one_file_world "files.txt" ("a" ++ nl ++ nl ++ "b" ++ nl))
           "files.txt" "#" ("a" ++ nl ++ nl ++ "b" ++ nl) nl []).
  - reflexivity.
  - reflexivity.
  - right. left. reflexivity.
  - reflexivity.
Defined.

(* ================================================================== *)
(** ** NERSC_RetreiveData *)

(** C4: for the one-name list ["scan_01"] the function raises [NameError]
    on [useraccount] in the first pass of its first loop: no path is
    built and no copy is run. *)
Theorem NERSC_RetreiveData_one_name :
  Nersc.NERSC_RetreiveData (Nersc.Several ["scan_01"]) "hmwood" "/scratch/"
    Nersc.NERSC_DefaultPath [] =
  (inl (NameError "useraccount"), [])
  /\ copies (snd (Nersc.NERSC_RetreiveData (Nersc.Several ["scan_01"]) "hmwood"
                    "/scratch/" Nersc.NERSC_DefaultPath [])) = [].
Proof. split; reflexivity. Qed.

(** The same on every list that is not empty, from every trace. *)
Lemma NERSC_RetreiveData_name_error (filename : Nersc.names)
    (username destinationpath archivepath : string) (tr : trace) :
  Nersc.as_list filename <> [] ->
  Nersc.NERSC_RetreiveData filename username destinationpath archivepath tr =
  (inl (NameError "useraccount"), tr).
Proof.
  intros Hne. unfold Nersc.NERSC_RetreiveData, Nersc.NERSC_RetreiveData_in.
  destruct (Nersc.as_list filename) as [|f rest]; [contradiction|].
  reflexivity.
Qed.

Lemma copies_app (t1 t2 : trace) : copies (t1 ++ t2) = copies t1 ++ copies t2.
Proof.
  induction t1 as [|e t1 IH]; simpl; [reflexivity|].
  destruct e; simpl; rewrite IH; reflexivity.
Qed.

Lemma skipn_nth_error {A : Type} (l : list A) (n : nat) (a : A) :
  nth_error l n = Some a -> skipn n l = a :: skipn (S n) l.
Proof.
  revert l. induction n as [|n IH]; intros [|x l]; simpl; try discriminate.
  - intros [= ->]. reflexivity.
  - intros H. rewrite (IH l H). reflexivity.
Qed.

(** What the body does once [useraccount] is bound at module level to a
    string: the paths are built and one copy per name is run, in order. *)
Section RetrieveWithAccount.
Variable globals : list (string * json).
Variable account : string.
Hypothesis account_bound : load_global globals "useraccount" = inr (JStr account).

Variables destinationpath archivepath : string.

Lemma build_paths_bound (filename : list string) :
  forall (filePathIn filePathOut : list string) (tr : trace),
  exists tr',
    Nersc.build_paths globals filename destinationpath archivepath
      filePathIn filePathOut tr =
    (inr (filePathIn ++ List.map (source_path archivepath account) filename,
          filePathOut ++ List.map (target_path destinationpath) filename), tr')
    /\ copies tr' = copies tr.
Proof.
  induction filename as [|f rest IH]; intros filePathIn filePathOut tr.
  - exists tr. simpl. rewrite !app_nil_r. split; reflexivity.
  - cbn [Nersc.build_paths]. rewrite bind_lift, account_bound.
    rewrite bind_emit, bind_lift, bind_lift. cbn [add].
    destruct (IH (filePathIn ++ [((archivepath ++ account) ++ "/" ++ f ++ "/raw/" ++ f ++ ".h5")%string])
                 (filePathOut ++ [(destinationpath ++ f ++ ".h5")%string])
                 (tr ++ [Stdout [JStr archivepath; JStr account; JStr f]]))
      as (tr' & Hrun & Hcopies).
    exists tr'. rewrite Hrun. split.
    + rewrite <- !app_assoc. cbn [List.map app].
      unfold source_path, target_path. rewrite append_assoc. reflexivity.
    + rewrite Hcopies, copies_app. simpl. apply app_nil_r.
Qed.

Lemma copy_files_run (filePathIn filePathOut : list string) :
  List.length filePathIn = List.length filePathOut ->
  forall (k a : nat) (tr : trace),
    a + k = List.length filePathIn ->
    exists tr',
      Nersc.copy_files (List.map Z.of_nat (seq a k)) filePathIn filePathOut tr
      = (inr tt, tr')
      /\ copies tr' =
         copies tr ++
         List.map (fun io => ("cp " ++ fst io ++ " " ++ snd io)%string)
                  (combine (skipn a filePathIn) (skipn a filePathOut)).
Proof.
  intros Hlen. induction k as [|k IH]; intros a tr Hak.
  - exists tr. split; [reflexivity|].
    rewrite skipn_all2 by lia. simpl. rewrite app_nil_r. reflexivity.
  - cbn [seq List.map Nersc.copy_files].
    destruct (nth_error filePathIn a) as [i|] eqn:Hi;
      [|apply nth_error_None in Hi; lia].
    destruct (nth_error filePathOut a) as [o|] eqn:Ho;
      [|apply nth_error_None in Ho; lia].
    rewrite (getitem_nat _ _ _ Hi), (getitem_nat _ _ _ Ho).
    rewrite bind_lift, bind_emit, !bind_lift, !bind_emit.
    destruct (IH (S a) (((tr ++ [Log ("begin transfer: " ++ i)])
                         ++ [System ("cp " ++ i ++ " " ++ o)])
                        ++ [Log "transfer complete: "])) as (tr' & Hrun & Hcopies);
      [lia|].
    exists tr'. split; [exact Hrun|].
    rewrite Hcopies, !copies_app.
    rewrite (skipn_nth_error _ _ _ Hi), (skipn_nth_error _ _ _ Ho).
    cbn [copies combine List.map fst snd].
    rewrite !app_nil_r, <- app_assoc. reflexivity.
Qed.

(** X19: with [useraccount] bound at module level to a string,
    [NERSC_RetreiveData] returns normally and runs one [cp] per name, in
    order, from the account's raw file in the archive to the destination
    directory; the [username] argument plays no part. *)
Lemma NERSC_RetreiveData_with_account (filename : Nersc.names)
    (username : string) (tr : trace) :
  exists tr',
    Nersc.NERSC_RetreiveData_in globals filename username destinationpath
      archivepath tr = (inr tt, tr')
    /\ copies tr' =
       copies tr ++
       List.map (copy_command archivepath account destinationpath)
                (Nersc.as_list filename).
Proof.
  unfold Nersc.NERSC_RetreiveData_in.
  destruct (build_paths_bound (Nersc.as_list filename) [] [] tr)
    as (tr1 & Hbuild & Hcopies1).
  unfold bind at 1. rewrite Hbuild. cbn [app].
  rewrite bind_emit.
  rewrite bind_emit.
  rewrite bind_emit.
  rewrite bind_emit.
  destruct (copy_files_run (List.map (source_path archivepath account) (Nersc.as_list filename))
              (List.map (target_path destinationpath) (Nersc.as_list filename))
              ltac:(rewrite !length_map; reflexivity)
              (List.length (Nersc.as_list filename)) 0
              ((((tr1 ++ [Log "file path list complete"])
                 ++ [Stdout [JArr (List.map JStr (List.map (source_path archivepath account) (Nersc.as_list filename)))]])
                ++ [Log "destination path list complete"])
               ++ [Stdout [JArr (List.map JStr (List.map (target_path destinationpath) (Nersc.as_list filename)))]])
              ltac:(rewrite length_map; reflexivity))
    as (tr' & Hrun & Hcopies).
  exists tr'. split; [exact Hrun|].
  rewrite Hcopies, !copies_app, Hcopies1. simpl. rewrite !app_nil_r.
  f_equal. clear.
  induction (Nersc.as_list filename) as [|f l IH]; simpl; [reflexivity|].
  rewrite IH. reflexivity.
Qed.

End RetrieveWithAccount.

(* ================================================================== *)
(** ** More on [strip]: the ends of the result, idempotence *)

Section StripEnds.
Variable chars : string.

Lemma lstrip_first (s : string) (c : ascii) :
  first_char (lstrip chars s) = Some c -> char_in c chars = false.
Proof.
  induction s as [|k s IH]; simpl; [discriminate|].
  destruct (char_in k chars) eqn:Hk; [exact IH|].
  simpl. intros [= <-]. exact Hk.
Qed.

Lemma rstrip_first (s : string) (c : ascii) :
  first_char (rstrip chars s) = Some c -> first_char s = Some c.
Proof.
  destruct s as [|k s]; simpl; [discriminate|].
  destruct (rstrip chars s); [destruct (char_in k chars)|];
    simpl; try discriminate; exact (fun H => H).
Qed.

Lemma rstrip_last (s : string) (c : ascii) :
  last_char (rstrip chars s) = Some c -> char_in c chars = false.
Proof.
  induction s as [|k s IH]; simpl; [discriminate|].
  destruct (rstrip chars s) as [|k' r] eqn:Hr.
  - destruct (char_in k chars) eqn:Hk; simpl; [discriminate|].
    intros [= <-]. exact Hk.
  - exact IH.
Qed.

Lemma strip_first (s : string) (c : ascii) :
  first_char (strip s chars) = Some c -> char_in c chars = false.
Proof.
  unfold strip. intros H. apply rstrip_first in H.
  exact (lstrip_first s c H).
Qed.

Lemma strip_last (s : string) (c : ascii) :
  last_char (strip s chars) = Some c -> char_in c chars = false.
Proof. unfold strip. apply rstrip_last. Qed.




End StripEnds.

Lemma last_char_app (a b : string) :
  b <> "" -> last_char (a ++ b) = last_char b.
Proof.
  intros Hb. induction a as [|k a IH]; [reflexivity|].
  simpl. rewrite <- IH.
  destruct (a ++ b)%string eqn:E; [|reflexivity].
  destruct a; [simpl in E; contradiction | discriminate].
Qed.

(** Joining the segments of [split] with the separator gives the string
    back. *)
Lemma concat_split (s : string) (sep : ascii) :
  String.concat (String sep "") (split s sep) = s.
Proof.
  induction s as [|c s IH]; [reflexivity|].
  cbn [split]. pose proof (split_not_nil s sep) as Hne.
  destruct (Ascii.eqb c sep) eqn:Hc.
  - apply Ascii.eqb_eq in Hc. subst c.
    destruct (split s sep) as [|h t]; [contradiction|].
    change (String.concat (String sep "") ("" :: h :: t))
      with (String sep (String.concat (String sep "") (h :: t))).
    rewrite IH. reflexivity.
  - destruct (split s sep) as [|h t]; [contradiction|].
    rewrite <- IH. destruct t; reflexivity.
Qed.

Lemma concat_last_segment (sep : string) (front : list string) (seg : string) :
  exists p, String.concat sep (front ++ [seg]) = (p ++ seg)%string.
Proof.
  induction front as [|x front [p IH]].
  - exists "". reflexivity.
  - exists (x ++ sep ++ p)%string. cbn [app].
    destruct (front ++ [seg]) as [|y l] eqn:E;
      [destruct front; discriminate|].
    change (String.concat sep (x :: y :: l))
      with (x ++ sep ++ String.concat sep (y :: l))%string.
    rewrite IH, !append_assoc. reflexivity.
Qed.

Lemma list_last_two {A : Type} (l : list A) :
  2 <= List.length l -> exists front a b, l = front ++ [a; b].
Proof.
  induction l as [|x l IH]; simpl; [lia|].
  destruct l as [|y l]; simpl in *; [lia|].
  destruct l as [|z l].
  - intros _. exists [], x, y. reflexivity.
  - intros _. destruct IH as (front & a & b & E); [simpl; lia|].
    exists (x :: front), a, b. rewrite E. reflexivity.
Qed.

(* ================================================================== *)
(** ** formatPath: what it returns *)

(** X1: [formatPath] raises nothing, whatever the dataset and the username:
    when it indexes the segments from the end there are at least two. *)
Theorem formatPath_never_raises (self : SpotSession.t) (dataset : string)
    (username_arg : option string) :
  exists filename username,
    SpotSession.formatPath self dataset username_arg = inr (filename, username).
Proof. apply formatPath_total. Qed.

(** X2: The filename returned never ends with ".", "h" or "5": the ".h5"
    appended to it in the request URLs is its only extension. *)
Theorem formatPath_filename_end (self : SpotSession.t) (dataset fn un : string)
    (username_arg : option string) (c : ascii) :
  SpotSession.formatPath self dataset username_arg = inr (fn, un) ->
  last_char fn = Some c ->
  char_in c ".h5" = false.
Proof.
  unfold SpotSession.formatPath. intros Hfp Hlast.
  assert (Hwhole : forall x : string,
            inr (strip dataset ".h5", x) = inr (B := string * string) (A := exn) (fn, un) ->
            char_in c ".h5" = false).
  { intros x [= <- _]. exact (strip_last ".h5" dataset c Hlast). }
  destruct username_arg as [name|]; [|exact (Hwhole _ Hfp)].
  destruct (String.eqb name "default"); [exact (Hwhole _ Hfp)|].
  destruct (contains "/" (strip dataset ".h5")) eqn:Hin; [|exact (Hwhole _ Hfp)].
  rewrite contains_char in Hin. apply split_two_segments in Hin.
  destruct (list_last_two _ Hin) as (front & a & b & Hsplit).
  rewrite Hsplit, getitem_before_last, getitem_last in Hfp.
  cbn [rbind] in Hfp. injection Hfp as <- <-.
  destruct (concat_last_segment "/" (front ++ [a]) b) as [p Hp].
  rewrite <- app_assoc in Hp. cbn [app] in Hp.
  rewrite <- Hsplit, concat_split in Hp.
  apply (strip_last ".h5" dataset). rewrite Hp.
  rewrite last_char_app; [exact Hlast|].
  intros ->. discriminate Hlast.
Qed.

Lemma formatPath_filename_end_witness :
  SpotSession.formatPath session0 "2013/hmwood/scan_01.h5" (Some "guest")
    = inr ("scan_01", "hmwood")
  /\ char_in "1" ".h5" = false.
Proof.
  split; [reflexivity|].
  apply (formatPath_filename_end session0 "2013/hmwood/scan_01.h5" "scan_01"
           "hmwood" (Some "guest") "1"); reflexivity.
Defined.



(* ================================================================== *)
(** ** Opening and checking the session *)

(** X4: [__init__] does not look at what the portal answers: once its GET and
    its POST have gone through, the session object is returned whatever
    the answers were, bad credentials included.  With a password given
    nothing is prompted for. *)
Theorem init_ignores_answers (w : world) (name password : string) (tr : trace)
    (r1 r2 : response) :
  server_get w "https://portal-auth.nersc.gov/als/auth" [] = inr r1 ->
  server_post w "https://portal-auth.nersc.gov/als/auth"
    [("username", JStr (if String.eqb name "default" then "alvarorh" else name));
     ("password", JStr password)] = inr r2 ->
  SpotSession.init w name (Some password) tr =
  (inr {| SpotSession.URL_authentication := "https://portal-auth.nersc.gov/als/auth";
          SpotSession.username := "alvarorh";
          SpotSession.spot_username :=
            if String.eqb name "default" then "alvarorh" else name |},
   tr ++ [HttpGet "https://portal-auth.nersc.gov/als/auth" [];
          HttpPost "https://portal-auth.nersc.gov/als/auth"
            [("username", JStr (if String.eqb name "default" then "alvarorh" else name));
             ("password", JStr password)]]).
Proof.
  intros Hget Hpost. unfold SpotSession.init.
  unfold bind, ret, session_get, session_post.
  rewrite Hget, Hpost, <- app_assoc. reflexivity.
Qed.

Lemma init_ignores_answers_witness :
  SpotSession.init empty_list_world "default" (Some "wrong") [] =
  (inr session0,
   [HttpGet "https://portal-auth.nersc.gov/als/auth" [];
    HttpPost "https://portal-auth.nersc.gov/als/auth"
      [("username", JStr "alvarorh"); ("password", JStr "wrong")]]).
Proof.
  apply (init_ignores_answers empty_list_world "default" "wrong" []
           {| content := "[]"; json_body := Some (JArr []) |}
           {| content := "[]"; json_body := Some (JArr []) |});
    reflexivity.
Defined.

(** X5: [authentication] on a session the portal reports as authenticated
    (an "auth" entry that is not equal to False) asks for nothing and
    posts nothing: it sends its two GETs and returns the entry. *)
Theorem authentication_when_authenticated (w : world) (self : SpotSession.t)
    (typed_username : string) (tr : trace) (r : response) (answer auth : json) :
  server_get w (SpotSession.URL_authentication self) [] = inr r ->
  json_body r = Some answer ->
  field answer "auth" = inr auth ->
  eq_False auth = false ->
  SpotSession.authentication w typed_username self tr =
  (inr auth,
   tr ++ [HttpGet (SpotSession.URL_authentication self) [];
          HttpGet (SpotSession.URL_authentication self) []]).
Proof.
  intros Hget Hjson Hauth Hfalse.
  assert (Hcheck : forall (B : Type) (k : json -> M B) (t : trace),
            (r <- session_get w (SpotSession.URL_authentication self) [] ;;
             answer <- r_json r ;;
             auth <- lift (field answer "auth") ;; k auth) t =
            k auth (t ++ [HttpGet (SpotSession.URL_authentication self) []])).
  { intros B k t. unfold bind at 1. unfold session_get. rewrite Hget.
    unfold bind at 1. unfold r_json. rewrite Hjson. unfold ret at 1.
    rewrite bind_lift, Hauth. reflexivity. }
  assert (Hlast : forall t : trace,
            (r <- session_get w (SpotSession.URL_authentication self) [] ;;
             answer <- r_json r ;; lift (field answer "auth")) t =
            (inr auth, t ++ [HttpGet (SpotSession.URL_authentication self) []])).
  { intros t. unfold bind at 1. unfold session_get. rewrite Hget.
    unfold bind at 1. unfold r_json. rewrite Hjson. unfold ret at 1.
    unfold lift. rewrite Hauth. reflexivity. }
  unfold SpotSession.authentication.
  rewrite Hcheck, Hfalse.
  unfold bind at 1. unfold ret at 1.
  rewrite Hlast, <- app_assoc. reflexivity.
Qed.

Lemma authentication_when_authenticated_witness :
  SpotSession.authentication authenticated_world "hmwood" session0 [] =
  (inr (JBool true),
   [HttpGet "https://portal-auth.nersc.gov/als/auth" [];
    HttpGet "https://portal-auth.nersc.gov/als/auth" []]).
Proof.
  apply (authentication_when_authenticated authenticated_world session0 "hmwood" []
           {| content := ""; json_body := Some (JObj [("auth", JBool true)]) |}
           (JObj [("auth", JBool true)]) (JBool true));
    reflexivity.
Defined.

(* ================================================================== *)
(** ** The extension is optional *)

(** X6: Every method that takes a dataset name runs the same on the name
    with ".h5" appended as on the name itself. *)
Theorem extension_optional (w : world) (self : SpotSession.t)
    (d kind downloadPath downloadName : string) (u : option string) (number : Z)
    (un : string) :
  SpotSession.derived_datasets w self (d ++ ".h5") = SpotSession.derived_datasets w self d
  /\ SpotSession.list_images w self (d ++ ".h5") un = SpotSession.list_images w self d un
  /\ SpotSession.attributes w self (d ++ ".h5") u = SpotSession.attributes w self d u
  /\ SpotSession.stage w self (d ++ ".h5") u = SpotSession.stage w self d u
  /\ SpotSession.download w self (d ++ ".h5") u downloadPath downloadName
     = SpotSession.download w self d u downloadPath downloadName
  /\ SpotSession.download_image w self (d ++ ".h5") u kind number downloadPath downloadName
     = SpotSession.download_image w self d u kind number downloadPath downloadName
  /\ SpotSession.download_URLS w self (d ++ ".h5") u kind number
     = SpotSession.download_URLS w self d u kind number
  /\ SpotSession.run_TomoPy w self (d ++ ".h5") = SpotSession.run_TomoPy w self d.
Proof.
  assert (Hfp : SpotSession.formatPath self (d ++ ".h5") u = SpotSession.formatPath self d u).
  { unfold SpotSession.formatPath.
    rewrite (strip_app_all_in ".h5" d ".h5" eq_refl). reflexivity. }
  unfold SpotSession.derived_datasets, SpotSession.list_images,
    SpotSession.attributes, SpotSession.stage, SpotSession.download,
    SpotSession.download_image, SpotSession.download_URLS, SpotSession.run_TomoPy.
  rewrite Hfp, (strip_app_all_in ".h5" d ".h5" eq_refl).
  repeat split; reflexivity.
Qed.

(** X7: The "dataset" parameter that [run_TomoPy] sends neither begins nor
    ends with "/". *)
Theorem run_TomoPy_parameter (w : world) (self : SpotSession.t)
    (raw_dataset : string) (tr : trace) :
  exists p,
    SpotSession.run_TomoPy w self raw_dataset tr =
    (decoded (server_get w SpotSession.URL_tomopyjob [("dataset", JStr p)]),
     tr ++ [HttpGet SpotSession.URL_tomopyjob [("dataset", JStr p)]])
    /\ first_char p <> Some "/"%char
    /\ last_char p <> Some "/"%char.
Proof.
  exists (strip (strip raw_dataset ".h5") "/").
  split; [apply get_json_run|].
  split; intros H.
  - apply strip_first in H. discriminate H.
  - apply strip_last in H. discriminate H.
Qed.

(* ================================================================== *)
(** ** download *)

Lemma length_append (a b : string) :
  String.length (a ++ b) = String.length a + String.length b.
Proof. induction a as [|k a IH]; simpl; [reflexivity | rewrite IH; reflexivity]. Qed.

Lemma iter_content_from_bounded (size : nat) (body : string) :
  1 <= size ->
  forall (room : nat) (cur : string),
    String.length cur + room = size ->
    Forall (fun chunk => String.length chunk <= size)
           (iter_content_from size room cur body).
Proof.
  intros Hsize. induction body as [|c body IH]; intros room cur Hcur; simpl.
  - destruct cur; constructor; [simpl in *; lia | constructor].
  - destruct room as [|room].
    + constructor; [lia|]. apply IH. simpl. lia.
    + apply IH. rewrite length_append. simpl. lia.
Qed.

(** X8: [download], when the directory is not empty, the portal answers and
    the file can be opened: one GET for the dataset's raw file, then the
    body written to the destination followed by ".h5", in chunks that are
    not empty, hold at most 512 bytes each and make up the body; the
    location written is returned. *)
Theorem download_run (w : world) (self : SpotSession.t)
    (d downloadPath downloadName fn un dest : string) (u : option string)
    (tr : trace) (resp : response) :
  SpotSession.formatPath self d u = inr (fn, un) ->
  destination downloadPath (strip downloadName ".h5") fn = inr dest ->
  server_get w (SpotSession.URL_download ++ resource_path un fn) [] = inr resp ->
  writable w (dest ++ ".h5") = true ->
  SpotSession.download w self d u downloadPath downloadName tr =
  (inr (dest ++ ".h5")%string,
   tr ++ [HttpGet (SpotSession.URL_download ++ resource_path un fn) [];
          FileOpenWrite (dest ++ ".h5")]
      ++ List.map (FileWrite (dest ++ ".h5")) (iter_content 512 (content resp))
      ++ [Stdout [JStr ("download  complete: " ++ dest ++ ".h5")%string]])
  /\ joined (iter_content 512 (content resp)) = content resp
  /\ Forall (fun chunk => chunk <> "" /\ String.length chunk <= 512)
            (iter_content 512 (content resp)).
Proof.
  intros Hfp Hdest Hget Hw.
  split; [|split; [apply joined_iter_content|]].
  - unfold SpotSession.download.
    rewrite bind_lift, Hfp. cbv beta iota.
    unfold destination, rbind in Hdest.
    destruct (str_getitem _ _) as [e|last] eqn:Hlast; [discriminate|].
    injection Hdest as Hdest.
    rewrite bind_lift.
    unfold bind at 1. unfold session_get at 1.
    change (SpotSession.URL_download ++ un ++ "/" ++ fn ++ "/raw/" ++ fn ++ ".h5")%string
      with (SpotSession.URL_download ++ resource_path un fn)%string.
    rewrite Hget, <- append_assoc, Hdest.
    unfold bind at 1. unfold open_write at 1. rewrite Hw.
    unfold bind at 1.
    rewrite write_chunks_run
      by (apply iter_content_from_nonempty; discriminate).
    unfold bind, emit, ret.
    f_equal. rewrite <- !app_assoc. reflexivity.
  - apply Forall_forall. intros chunk Hin. split.
    + exact (proj1 (Forall_forall _ _)
               (iter_content_from_nonempty 512 (content resp) 512 ""
                  ltac:(discriminate)) chunk Hin).
    + exact (proj1 (Forall_forall _ _)
               (iter_content_from_bounded 512 (content resp) ltac:(lia) 512 ""
                  eq_refl) chunk Hin).
Qed.

Lemma download_run_witness :
  SpotSession.download scenario_world session0 "scan_01.h5" (Some "hmwood")
    "/tmp/out/" "default.h5" [] =
  (inr "/tmp/out/scan_01.h5",
   [HttpGet "https://portal-auth.nersc.gov/als/hdf/download/als/bl832/hmwood/scan_01/raw/scan_01.h5" [];
    FileOpenWrite "/tmp/out/scan_01.h5";
    FileWrite "/tmp/out/scan_01.h5" "II*tiff";
    Stdout [JStr "download  complete: /tmp/out/scan_01.h5"]])
  /\ joined (iter_content 512 "II*tiff") = "II*tiff"
  /\ Forall (fun chunk => chunk <> "" /\ String.length chunk <= 512)
            (iter_content 512 "II*tiff").
Proof.
  apply (download_run scenario_world session0 "scan_01.h5" "/tmp/out/"
           "default.h5" "scan_01" "hmwood" "/tmp/out/scan_01" (Some "hmwood") []
           {| content := "II*tiff"; json_body := None |});
    reflexivity.
Defined.

(** X9: [download] with the empty string as directory raises [IndexError]
    before anything is requested or written. *)
Theorem download_empty_directory (w : world) (self : SpotSession.t)
    (d downloadName : string) (u : option string) (tr : trace) :
  SpotSession.download w self d u "" downloadName tr = (inl IndexError, tr).
Proof.
  destruct (formatPath_total self d u) as (fn & un & Hfp).
  unfold SpotSession.download. rewrite bind_lift, Hfp. cbv beta iota.
  rewrite bind_lift.
  change (if String.eqb "" "default" then "./" else "") with "".
  rewrite str_getitem_empty. reflexivity.
Qed.

(** X10: [download_image] with the empty string as directory raises
    [IndexError] only after both listing requests have been answered and
    the image found; no download request follows. *)
Theorem download_image_empty_directory (w : world) (self : SpotSession.t)
    (d kind downloadName fn un : string) (u : option string) (number : Z)
    (tr : trace) (data images image : json) (path : option json) :
  SpotSession.formatPath self d u = inr (fn, un) ->
  fst (SpotSession.derived_datasets w self fn tr) = inr data ->
  SpotSession.select_path data kind = inr path ->
  fst (SpotSession.list_images w self fn un tr) = inr images ->
  item images number = inr image ->
  SpotSession.download_image w self d u kind number "" downloadName tr =
  (inl IndexError, after_listings fn un tr).
Proof.
  intros Hfp Hd Hsel Hl Hi.
  rewrite derived_datasets_run in Hd. rewrite list_images_run in Hl.
  cbn [fst] in Hd, Hl.
  unfold SpotSession.download_image.
  rewrite bind_lift, Hfp. cbv beta iota.
  rewrite bind_run, derived_datasets_run. cbn [fst snd]. rewrite Hd.
  rewrite bind_lift, Hsel.
  rewrite bind_run, list_images_run. cbn [fst snd]. rewrite Hl.
  rewrite bind_lift, Hi. rewrite bind_lift.
  change (if String.eqb "" "default" then "./" else "") with "".
  rewrite str_getitem_empty. unfold after_listings.
  rewrite <- app_assoc. reflexivity.
Qed.

Lemma download_image_empty_directory_witness :
  SpotSession.download_image scenario_world session0 "scan_01" (Some "hmwood")
    "norm" 1 "" "slice" [] =
  (inl IndexError, after_listings "scan_01" "hmwood" []).
Proof.
  apply (download_image_empty_directory scenario_world session0 "scan_01" "norm"
           "slice" "scan_01" "hmwood" (Some "hmwood") 1 []
           (JArr [JObj [("kind", JStr "norm"); ("path", JStr "/p1")]])
           (JArr [JStr "img0.tif"; JStr "img1.tif"]) (JStr "img1.tif")
           (Some (JStr "/p1")));
    reflexivity.
Defined.

(* ================================================================== *)
(** ** The scan for the kind, and the image index *)

(** The scan up to the first record that decides it: the records in
    front all miss, so the loop reaches the record [here] with some
    value in [path].  The records behind are not looked at before. *)
Lemma scan_paths_front (kind : string) (front back : list json) (here : json) :
  Forall (misses kind) front ->
  forall (k a : nat) (cur : option json),
    a <= List.length front ->
    a + k = List.length (front ++ here :: back) ->
    exists cur',
      SpotSession.scan_paths (JArr (front ++ here :: back)) kind
        (List.map Z.of_nat (seq a k)) cur =
      SpotSession.scan_paths (JArr (front ++ here :: back)) kind
        (List.map Z.of_nat (seq (List.length front) (S (List.length back))))
        cur'.
Proof.
  intros Hall. induction k as [|k IH]; intros a cur Ha Hak.
  - rewrite length_app in Hak. simpl in Hak. lia.
  - rewrite length_app in Hak. cbn [List.length] in Hak.
    destruct (Nat.eq_dec a (List.length front)) as [->|Hne].
    + exists cur. replace (S k) with (S (List.length back)) by lia. reflexivity.
    + cbn [seq List.map SpotSession.scan_paths].
      destruct (nth_error front a) as [r|] eqn:Hr;
        [|apply nth_error_None in Hr; lia].
      assert (Hr' : nth_error (front ++ here :: back) a = Some r)
        by (rewrite nth_error_app1 by lia; exact Hr).
      unfold item. rewrite (getitem_nat _ _ _ Hr'). cbn [rbind].
      pose proof (proj1 (Forall_forall _ _) Hall r (nth_error_In _ _ Hr))
        as (p & Hp & Hmiss).
      unfold has_path in Hp. rewrite Hp. cbn [rbind Json.find].
      unfold contains in Hmiss. rewrite Hmiss.
      apply IH; [lia | rewrite length_app; simpl; lia].
Qed.

(** First match wins: when the records in front of [hit] all miss and
    the path of [hit] contains the kind, the scan stops there. *)
Lemma select_path_first_hit (kind p : string) (front back : list json)
    (hit : json) :
  Forall (misses kind) front ->
  has_path hit p -> contains kind p = true ->
  SpotSession.select_path (JArr (front ++ hit :: back)) kind
  = inr (Some (JStr p)).
Proof.
  intros Hall Hp Hhit. unfold SpotSession.select_path, len, rbind, range.
  destruct (scan_paths_front kind front back hit Hall
              (List.length (front ++ hit :: back)) 0 None) as [cur' ->]; [lia..|].
  cbn [seq List.map SpotSession.scan_paths].
  unfold item.
  rewrite (getitem_nat (front ++ hit :: back) (List.length front) hit)
    by (rewrite nth_error_app2, Nat.sub_diag by lia; reflexivity).
  cbn [rbind]. unfold has_path in Hp. rewrite Hp. cbn [rbind Json.find].
  unfold contains in Hhit. apply negb_true_iff in Hhit.
  rewrite Hhit. reflexivity.
Qed.

(** A record without a "path" entry, met before any match, ends the scan
    with [KeyError]. *)
Lemma select_path_missing_key (kind : string) (front back : list json)
    (fields : list (string * json)) :
  Forall (misses kind) front ->
  lookup "path" fields = None ->
  SpotSession.select_path (JArr (front ++ JObj fields :: back)) kind
  = inl KeyError.
Proof.
  intros Hall Hnone. unfold SpotSession.select_path, len, rbind, range.
  destruct (scan_paths_front kind front back (JObj fields) Hall
              (List.length (front ++ JObj fields :: back)) 0 None)
    as [cur' ->]; [lia..|].
  cbn [seq List.map SpotSession.scan_paths].
  unfold item.
  rewrite (getitem_nat (front ++ JObj fields :: back) (List.length front)
             (JObj fields))
    by (rewrite nth_error_app2, Nat.sub_diag by lia; reflexivity).
  cbn [rbind field]. rewrite Hnone. reflexivity.
Qed.

(** X11: First match wins in both methods: the download request is built from
    the path of the first record whose path contains the kind, whatever
    the records behind it are. *)
Theorem downloads_use_first_match (w : world) (self : SpotSession.t)
    (d kind downloadPath downloadName fn un p img dest : string)
    (u : option string) (number : Z) (tr : trace)
    (front back : list json) (hit images : json) (resp : response) :
  SpotSession.formatPath self d u = inr (fn, un) ->
  fst (SpotSession.derived_datasets w self fn tr)
    = inr (JArr (front ++ hit :: back)) ->
  Forall (misses kind) front ->
  has_path hit p -> contains kind p = true ->
  fst (SpotSession.list_images w self fn un tr) = inr images ->
  item images number = inr (JStr img) ->
  destination downloadPath downloadName fn = inr dest ->
  server_get w (SpotSession.URL_rawdata ++ p) (group_query img) = inr resp ->
  writable w (dest ++ ".tif") = true ->
  SpotSession.download_image w self d u kind number downloadPath downloadName tr =
  (inr (dest ++ ".tif")%string,
   tr ++ [HttpGet SpotSession.URL_DerivedDatasets (derived_query fn);
          HttpGet (listimages_url fn un) [];
          HttpGet (SpotSession.URL_rawdata ++ p) (group_query img);
          FileOpenWrite (dest ++ ".tif")]
      ++ List.map (FileWrite (dest ++ ".tif")) (iter_content 512 (content resp))
      ++ [Stdout [JStr ("download  complete: " ++ dest ++ ".tif")%string]])
  /\ SpotSession.download_URLS w self d u kind number tr =
     (decoded (server_get w (SpotSession.URL_image ++ p) (group_query img)),
      tr ++ [HttpGet SpotSession.URL_DerivedDatasets (derived_query fn);
             HttpGet (listimages_url fn un) [];
             HttpGet (SpotSession.URL_image ++ p) (group_query img)]).
Proof.
  intros Hfp Hd Hall Hp Hhit Hl Hi Hdest Hraw Hw.
  pose proof (select_path_first_hit kind p front back hit Hall Hp Hhit) as Hsel.
  split.
  - exact (download_image_resolved w self d kind downloadPath downloadName
             fn un p img dest u number tr _ _ resp
             Hfp Hd Hsel Hl Hi Hdest Hraw Hw).
  - exact (download_URLS_resolved w self d kind fn un p img u number tr
             _ _ Hfp Hd Hsel Hl Hi).
Qed.

Lemma downloads_use_first_match_witness :
  SpotSession.download_image three_records_world session0 "scan_01" (Some "hmwood")
    "gridrec" 0 "default" "default" [] =
  (inr "./scan_01.tif",
   [HttpGet SpotSession.URL_DerivedDatasets [("dataset", JStr "scan_01")];
    HttpGet "https://portal-auth.nersc.gov/als/hdf/listimages/als/bl832/hmwood/scan_01/raw/scan_01.h5" [];
    HttpGet "https://portal-auth.nersc.gov/als/hdf/rawdata/hmwood/scan_01/gridrec/b.h5"
            [("group", JStr "/img0.tif")];
    FileOpenWrite "./scan_01.tif";
    FileWrite "./scan_01.tif" "II*tiff";
    Stdout [JStr "download  complete: ./scan_01.tif"]])
  /\ SpotSession.download_URLS three_records_world session0 "scan_01" (Some "hmwood")
       "gridrec" 0 [] =
     (inr (JObj [("url", JStr "https://portal-auth.nersc.gov/als/hdf/image/hmwood/scan_01/gridrec/b.h5")]),
      [HttpGet SpotSession.URL_DerivedDatasets [("dataset", JStr "scan_01")];
       HttpGet "https://portal-auth.nersc.gov/als/hdf/listimages/als/bl832/hmwood/scan_01/raw/scan_01.h5" [];
       HttpGet "https://portal-auth.nersc.gov/als/hdf/image/hmwood/scan_01/gridrec/b.h5"
               [("group", JStr "/img0.tif")]]).
Proof.
  apply (downloads_use_first_match three_records_world session0 "scan_01" "gridrec"
           "default" "default" "scan_01" "hmwood" "/hmwood/scan_01/gridrec/b.h5"
           "img0.tif" "./scan_01" (Some "hmwood") 0 [] [sino_record]
           [later_gridrec_record] gridrec_record
           (JArr [JStr "img0.tif"; JStr "img1.tif"])
           {| content := "II*tiff"; json_body := None |}).
  - reflexivity.
  - reflexivity.
  - repeat constructor.
    exists "/hmwood/scan_01/sino/a.h5". split; reflexivity.
  - reflexivity.
  - reflexivity.
  - reflexivity.
  - reflexivity.
  - reflexivity.
  - reflexivity.
  - reflexivity.
Defined.

(** X12: A derived record without a "path" entry, met before any match, makes
    both methods raise [KeyError] right after the derived-dataset
    request: the image list is not asked for. *)
Theorem downloads_missing_path_key (w : world) (self : SpotSession.t)
    (d kind downloadPath downloadName fn un : string) (u : option string)
    (number : Z) (tr : trace) (front back : list json)
    (fields : list (string * json)) :
  SpotSession.formatPath self d u = inr (fn, un) ->
  fst (SpotSession.derived_datasets w self fn tr)
    = inr (JArr (front ++ JObj fields :: back)) ->
  Forall (misses kind) front ->
  lookup "path" fields = None ->
  SpotSession.download_image w self d u kind number downloadPath downloadName tr =
  (inl KeyError, tr ++ [HttpGet SpotSession.URL_DerivedDatasets (derived_query fn)])
  /\ SpotSession.download_URLS w self d u kind number tr =
     (inl KeyError, tr ++ [HttpGet SpotSession.URL_DerivedDatasets (derived_query fn)]).
Proof.
  intros Hfp Hd Hall Hnone.
  pose proof (select_path_missing_key kind front back fields Hall Hnone) as Hsel.
  rewrite derived_datasets_run in Hd. cbn [fst] in Hd.
  split.
  - unfold SpotSession.download_image.
    rewrite bind_lift, Hfp. cbv beta iota.
    rewrite bind_run, derived_datasets_run. cbn [fst snd]. rewrite Hd.
    rewrite bind_lift, Hsel. reflexivity.
  - unfold SpotSession.download_URLS.
    rewrite bind_lift, Hfp. cbv beta iota.
    rewrite bind_run, derived_datasets_run. cbn [fst snd]. rewrite Hd.
    rewrite bind_lift, Hsel. reflexivity.
Qed.

Lemma downloads_missing_path_key_witness :
  SpotSession.download_image pathless_world session0 "scan_01" (Some "hmwood")
    "gridrec" 0 "default" "default" [] =
  (inl KeyError, [HttpGet SpotSession.URL_DerivedDatasets [("dataset", JStr "scan_01")]])
  /\ SpotSession.download_URLS pathless_world session0 "scan_01" (Some "hmwood")
       "gridrec" 0 [] =
     (inl KeyError, [HttpGet SpotSession.URL_DerivedDatasets [("dataset", JStr "scan_01")]]).
Proof.
  apply (downloads_missing_path_key pathless_world session0 "scan_01" "gridrec"
           "default" "default" "scan_01" "hmwood" (Some "hmwood") 0 [] []
           [gridrec_record] [("kind", JStr "norm")]).
  - reflexivity.
  - reflexivity.
  - constructor.
  - reflexivity.
Defined.

Lemma getitem_outside {A : Type} (l : list A) (i : Z) :
  (i < - Z.of_nat (List.length l) \/ Z.of_nat (List.length l) <= i)%Z ->
  getitem l i = inl IndexError.
Proof.
  intros Hi. unfold getitem.
  set (n := Z.of_nat (List.length l)) in *.
  destruct (Z.ltb_spec i 0).
  - replace ((0 <=? i + n) && (i + n <? n))%Z with false; [reflexivity|].
    symmetry. apply andb_false_iff. left. apply Z.leb_gt. lia.
  - replace ((0 <=? i) && (i <? n))%Z with false; [reflexivity|].
    symmetry. apply andb_false_iff. right. apply Z.ltb_ge. lia.
Qed.

Lemma getitem_from_end {A : Type} (l : list A) (k : nat) (a : A) :
  1 <= k <= List.length l ->
  nth_error l (List.length l - k) = Some a ->
  getitem l (- Z.of_nat k) = inr a.
Proof.
  intros Hk Hnth. unfold getitem.
  set (n := Z.of_nat (List.length l)) in *.
  replace (- Z.of_nat k <? 0)%Z with true by (symmetry; apply Z.ltb_lt; lia).
  replace ((0 <=? - Z.of_nat k + n) && (- Z.of_nat k + n <? n))%Z with true
    by (symmetry; apply andb_true_iff; split;
        [apply Z.leb_le | apply Z.ltb_lt]; lia).
  replace (Z.to_nat (- Z.of_nat k + n)) with (List.length l - k) by lia.
  rewrite Hnth. reflexivity.
Qed.

(** X13: An image number outside the list, on either side, makes both methods
    raise [IndexError] after the two listing requests; no download
    request is sent. *)
Theorem downloads_image_number_outside (w : world) (self : SpotSession.t)
    (d kind downloadPath downloadName fn un : string) (u : option string)
    (number : Z) (tr : trace) (data : json) (path : option json)
    (images : list json) :
  SpotSession.formatPath self d u = inr (fn, un) ->
  fst (SpotSession.derived_datasets w self fn tr) = inr data ->
  SpotSession.select_path data kind = inr path ->
  fst (SpotSession.list_images w self fn un tr) = inr (JArr images) ->
  (number < - Z.of_nat (List.length images)
   \/ Z.of_nat (List.length images) <= number)%Z ->
  SpotSession.download_image w self d u kind number downloadPath downloadName tr =
  (inl IndexError, after_listings fn un tr)
  /\ SpotSession.download_URLS w self d u kind number tr =
     (inl IndexError, after_listings fn un tr).
Proof.
  intros Hfp Hd Hsel Hl Hout.
  rewrite derived_datasets_run in Hd. rewrite list_images_run in Hl.
  cbn [fst] in Hd, Hl.
  assert (Hafter : (tr ++ [HttpGet SpotSession.URL_DerivedDatasets (derived_query fn)])
                   ++ [HttpGet (listimages_url fn un) []] = after_listings fn un tr).
  { unfold after_listings. rewrite <- app_assoc. reflexivity. }
  split.
  - unfold SpotSession.download_image.
    rewrite bind_lift, Hfp. cbv beta iota.
    rewrite bind_run, derived_datasets_run. cbn [fst snd]. rewrite Hd.
    rewrite bind_lift, Hsel.
    rewrite bind_run, list_images_run. cbn [fst snd]. rewrite Hl, Hafter.
    rewrite bind_lift. unfold item. rewrite (getitem_outside images number Hout).
    reflexivity.
  - unfold SpotSession.download_URLS.
    rewrite bind_lift, Hfp. cbv beta iota.
    rewrite bind_run, derived_datasets_run. cbn [fst snd]. rewrite Hd.
    rewrite bind_lift, Hsel.
    rewrite bind_run, list_images_run. cbn [fst snd]. rewrite Hl, Hafter.
    rewrite bind_lift. unfold item. rewrite (getitem_outside images number Hout).
    reflexivity.
Qed.

Lemma downloads_image_number_outside_witness :
  SpotSession.download_image scenario_world session0 "scan_01" (Some "hmwood")
    "norm" 2 "default" "default" [] =
  (inl IndexError, after_listings "scan_01" "hmwood" [])
  /\ SpotSession.download_URLS scenario_world session0 "scan_01" (Some "hmwood")
       "norm" 2 [] =
     (inl IndexError, after_listings "scan_01" "hmwood" []).
Proof.
  apply (downloads_image_number_outside scenario_world session0 "scan_01" "norm"
           "default" "default" "scan_01" "hmwood" (Some "hmwood") 2 []
           (JArr [JObj [("kind", JStr "norm"); ("path", JStr "/p1")]])
           (Some (JStr "/p1")) [JStr "img0.tif"; JStr "img1.tif"]).
  - reflexivity.
  - reflexivity.
  - reflexivity.
  - reflexivity.
  - right. simpl. lia.
Defined.

(** X14: A negative image number counts from the end of the list: [-k] asks
    for the [k]-th image from the end. *)
Theorem download_URLS_number_from_end (w : world) (self : SpotSession.t)
    (d kind fn un p img : string) (u : option string) (k : nat) (tr : trace)
    (data : json) (images : list json) :
  SpotSession.formatPath self d u = inr (fn, un) ->
  fst (SpotSession.derived_datasets w self fn tr) = inr data ->
  SpotSession.select_path data kind = inr (Some (JStr p)) ->
  fst (SpotSession.list_images w self fn un tr) = inr (JArr images) ->
  1 <= k <= List.length images ->
  nth_error images (List.length images - k) = Some (JStr img) ->
  SpotSession.download_URLS w self d u kind (- Z.of_nat k) tr =
  (decoded (server_get w (SpotSession.URL_image ++ p) (group_query img)),
   tr ++ [HttpGet SpotSession.URL_DerivedDatasets (derived_query fn);
          HttpGet (listimages_url fn un) [];
          HttpGet (SpotSession.URL_image ++ p) (group_query img)]).
Proof.
  intros Hfp Hd Hsel Hl Hk Hnth.
  apply (download_URLS_resolved w self d kind fn un p img u (- Z.of_nat k) tr
           data (JArr images) Hfp Hd Hsel Hl).
  unfold item. exact (getitem_from_end images k (JStr img) Hk Hnth).
Qed.

Lemma download_URLS_number_from_end_witness :
  SpotSession.download_URLS scenario_world session0 "scan_01" (Some "hmwood")
    "norm" (-1) [] =
  (inr (JObj [("url", JStr "https://portal-auth.nersc.gov/als/hdf/image/p1")]),
   [HttpGet SpotSession.URL_DerivedDatasets [("dataset", JStr "scan_01")];
    HttpGet "https://portal-auth.nersc.gov/als/hdf/listimages/als/bl832/hmwood/scan_01/raw/scan_01.h5" [];
    HttpGet "https://portal-auth.nersc.gov/als/hdf/image/p1"
            [("group", JStr "/img1.tif")]]).
Proof.
  apply (download_URLS_number_from_end scenario_world session0 "scan_01" "norm"
           "scan_01" "hmwood" "/p1" "img1.tif" (Some "hmwood") 1 []
           (JArr [JObj [("kind", JStr "norm"); ("path", JStr "/p1")]])
           [JStr "img0.tif"; JStr "img1.tif"]).
  - reflexivity.
  - reflexivity.
  - reflexivity.
  - reflexivity.
  - simpl. lia.
  - reflexivity.
Defined.

(* ================================================================== *)
(** ** list_from_txt: what it returns *)

Lemma str_getitem_first (c : ascii) (rest : string) :
  str_getitem (String c rest) 0 = inr (String c "").
Proof. reflexivity. Qed.

(** On lines none of which is blank the loop fails nowhere: it appends, in
    order, the stripped lines that do not start with the comment. *)
Lemma keep_lines_no_blank (comment : string) (data : list string) :
  Forall (fun line => ~ blank line) data ->
  forall fileList,
    Nersc.keep_lines data comment fileList =
    inr (fileList ++ List.filter (kept comment) (List.map cleaned data)).
Proof.
  induction 1 as [|line data Hline _ IH]; intros fileList.
  - simpl. rewrite app_nil_r. reflexivity.
  - cbn [Nersc.keep_lines List.map List.filter].
    fold (cleaned line). unfold blank in Hline. fold (cleaned line) in Hline.
    destruct (cleaned line) as [|c rest]; [contradiction|].
    rewrite str_getitem_first. cbn [rbind kept].
    destruct (negb (String.eqb (String c "") comment)); rewrite IH.
    + rewrite <- app_assoc. reflexivity.
    + reflexivity.
Qed.

(** X15: [list_from_txt] on a file without blank lines returns, in file order,
    the stripped lines that do not start with the comment character. *)
Theorem list_from_txt_entries (w : world) (TextFilePath comment text : string)
    (tr : trace) :
  contains ".py" TextFilePath = false ->
  files w TextFilePath = Some text ->
  Forall (fun line => ~ blank line) (readlines text) ->
  Nersc.list_from_txt w TextFilePath comment tr =
  (inr (List.filter (kept comment) (List.map cleaned (readlines text))),
   tr ++ [FileOpenRead TextFilePath]).
Proof.
  intros Hpy Hfile Hlines. unfold Nersc.list_from_txt. rewrite Hpy.
  unfold bind, open_readlines, lift. rewrite Hfile.
  rewrite (keep_lines_no_blank comment _ Hlines). reflexivity.
Qed.

Lemma list_from_txt_entries_witness :
  Nersc.list_from_txt
    (one_file_world "files.txt" ("  scan_01" ++ nl ++ "#scan_02" ++ nl ++ "scan_03"))
    "files.txt" "#" [] =
  (inr ["scan_01"; "scan_03"], [FileOpenRead "files.txt"]).
Proof.
  apply (list_from_txt_entries
           (one_file_world "files.txt"
              ("  scan_01" ++ nl ++ "#scan_02" ++ nl ++ "scan_03"))
           "files.txt" "#" ("  scan_01" ++ nl ++ "#scan_02" ++ nl ++ "scan_03") []).
  - reflexivity.
  - reflexivity.
  - repeat constructor; discriminate.
Defined.

(** A comment prefix that is not exactly one character excludes nothing:
    the test compares the first character of the line with the whole
    prefix. *)
Lemma kept_long_comment (comment entry : string) :
  String.length comment <> 1 -> entry <> "" -> kept comment entry = true.
Proof.
  intros Hlen Hne. destruct entry as [|c rest]; [contradiction|].
  cbn [kept]. destruct (String.eqb_spec (String c "") comment) as [<-|_];
    [simpl in Hlen; contradiction | reflexivity].
Qed.

(** X16: with a comment prefix that is not exactly one character,
    [list_from_txt] on a file without blank lines returns every stripped
    line, in file order: nothing is taken for a comment. *)
Theorem list_from_txt_long_comment (w : world)
    (TextFilePath comment text : string) (tr : trace) :
  contains ".py" TextFilePath = false ->
  files w TextFilePath = Some text ->
  Forall (fun line => ~ blank line) (readlines text) ->
  String.length comment <> 1 ->
  Nersc.list_from_txt w TextFilePath comment tr =
  (inr (List.map cleaned (readlines text)), tr ++ [FileOpenRead TextFilePath]).
Proof.
  intros Hpy Hfile Hlines Hlen. unfold Nersc.list_from_txt. rewrite Hpy.
  unfold bind, open_readlines, lift. rewrite Hfile.
  rewrite (keep_lines_no_blank comment _ Hlines). cbn [app].
  do 2 f_equal.
  induction Hlines as [|line data Hline _ IH]; [reflexivity|].
  cbn [List.map List.filter].
  rewrite (kept_long_comment comment (cleaned line) Hlen Hline), IH.
  reflexivity.
Qed.

Lemma list_from_txt_long_comment_witness :
  Nersc.list_from_txt
    (one_file_world "files.txt" ("scan_01" ++ nl ++ "//scan_02" ++ nl))
    "files.txt" "//" [] =
  (inr ["scan_01"; "//scan_02"], [FileOpenRead "files.txt"]).
Proof.
  apply (list_from_txt_long_comment
           (one_file_world "files.txt" ("scan_01" ++ nl ++ "//scan_02" ++ nl))
           "files.txt" "//" ("scan_01" ++ nl ++ "//scan_02" ++ nl) []).
  - reflexivity.
  - reflexivity.
  - repeat constructor; discriminate.
  - discriminate.
Defined.

Lemma lstrip_app_stop (chars a b : string) (c : ascii) :
  char_in c chars = false ->
  lstrip chars (a ++ String c b) = (lstrip chars a ++ String c b)%string.
Proof.
  intros Hc. induction a as [|k a IH]; simpl.
  - rewrite Hc. reflexivity.
  - destruct (char_in k chars); [exact IH | reflexivity].
Qed.

(** Stripping a character that does not occur changes nothing. *)
Lemma strip_absent (c : ascii) (s : string) :
  char_in c s = false -> strip s (String c "") = s.
Proof.
  intros Hs. unfold strip.
  assert (Hl : lstrip (String c "") s = s).
  { destruct s as [|k s]; [reflexivity|]. simpl in *.
    apply orb_false_iff in Hs as [Hk _].
    rewrite Ascii.eqb_sym, Hk. reflexivity. }
  rewrite Hl. clear Hl.
  induction s as [|k s IH]; [reflexivity|].
  simpl in Hs. apply orb_false_iff in Hs as [Hk Hs].
  cbn [rstrip]. rewrite (IH Hs).
  destruct s; [|reflexivity].
  simpl. rewrite Ascii.eqb_sym, Hk. reflexivity.
Qed.

(** A line of [readlines] has no newline but, possibly, its last
    character. *)
Lemma readlines_shape (text line : string) :
  In line (readlines text) ->
  exists body, char_in newline body = false
               /\ (line = body \/ line = (body ++ nl)%string).
Proof.
  revert line. induction text as [|c text IH]; intros line; [intros []|].
  cbn [readlines]. destruct (Ascii.eqb c newline) eqn:Hc.
  - apply Ascii.eqb_eq in Hc. subst c. intros [<-|Hin]; [|exact (IH line Hin)].
    exists "". split; [reflexivity | right; reflexivity].
  - assert (Hc' : Ascii.eqb newline c = false) by (rewrite Ascii.eqb_sym; exact Hc).
    destruct (readlines text) as [|first rest].
    + intros [<-|[]]. exists (String c ""). split; [|left; reflexivity].
      cbn [char_in]. rewrite Hc'. reflexivity.
    + intros [<-|Hin]; [|exact (IH line (or_intror Hin))].
      destruct (IH first (or_introl eq_refl)) as (body & Hbody & Hshape).
      exists (String c body).
      split; [cbn [char_in]; rewrite Hc', Hbody; reflexivity|].
      destruct Hshape as [->| ->]; [left | right]; reflexivity.
Qed.

(** What the loop makes of a line of [readlines] holds no newline and
    does not begin with a space. *)
Lemma cleaned_line (text line : string) :
  In line (readlines text) ->
  char_in newline (cleaned line) = false
  /\ first_char (cleaned line) <> Some " "%char.
Proof.
  intros Hin. destruct (readlines_shape text line Hin) as (body & Hbody & [->| ->]).
  - unfold cleaned. change nl with (String newline "").
    rewrite (strip_absent newline (strip body " "))
      by (apply char_in_strip; exact Hbody).
    split; [apply char_in_strip; exact Hbody|].
    intros H. apply strip_first in H. discriminate H.
  - assert (Hstrip : strip (body ++ nl) " " = (lstrip " " body ++ nl)%string).
    { unfold strip, nl. rewrite lstrip_app_stop by reflexivity.
      apply rstrip_unchanged. reflexivity. }
    assert (Hfree : char_in newline (lstrip " " body) = false).
    { destruct (char_in newline (lstrip " " body)) eqn:E; [|reflexivity].
      apply char_in_lstrip in E. congruence. }
    unfold cleaned. rewrite Hstrip.
    rewrite (strip_app_all_in nl (lstrip " " body) nl eq_refl).
    change nl with (String newline "").
    rewrite (strip_absent newline _ Hfree).
    split; [exact Hfree|].
    intros H. apply lstrip_first in H. discriminate H.
Qed.

Lemma keep_lines_invariant (P : string -> Prop) (comment : string)
    (data : list string) :
  (forall line, In line data -> cleaned line <> "" -> P (cleaned line)) ->
  forall fileList out,
    Forall (fun entry => kept comment entry = true /\ P entry) fileList ->
    Nersc.keep_lines data comment fileList = inr out ->
    Forall (fun entry => kept comment entry = true /\ P entry) out.
Proof.
  induction data as [|line data IH]; intros HP fileList out Hacc.
  - simpl. intros [= <-]. exact Hacc.
  - cbn [Nersc.keep_lines]. fold (cleaned line).
    pose proof (HP line (or_introl eq_refl)) as Hline.
    destruct (cleaned line) as [|c rest] eqn:Hclean;
      [rewrite str_getitem_empty; discriminate|].
    rewrite str_getitem_first. cbn [rbind].
    destruct (negb (String.eqb (String c "") comment)) eqn:Hkeep.
    + apply IH; [intros l Hl; apply HP; right; exact Hl|].
      apply Forall_app. split; [exact Hacc|].
      constructor; [|constructor]. split; [exact Hkeep|].
      apply Hline. discriminate.
    + apply IH; [intros l Hl; apply HP; right; exact Hl | exact Hacc].
Qed.

(** X17: Whenever [list_from_txt] returns a list, every entry of it is not
    empty, begins neither with the comment character nor with a space,
    and holds no newline. *)
Theorem list_from_txt_entries_clean (w : world)
    (TextFilePath comment : string) (tr : trace) (out : list string) :
  fst (Nersc.list_from_txt w TextFilePath comment tr) = inr out ->
  Forall (fun entry =>
            kept comment entry = true
            /\ char_in newline entry = false
            /\ first_char entry <> Some " "%char) out.
Proof.
  unfold Nersc.list_from_txt.
  destruct (contains ".py" TextFilePath); [discriminate|].
  unfold bind, open_readlines, lift.
  destruct (files w TextFilePath) as [text|]; [|discriminate].
  cbn [fst]. intros Hkeep.
  refine (keep_lines_invariant _ comment (readlines text) _ [] out
            (Forall_nil _) Hkeep).
  intros line Hin _. exact (cleaned_line text line Hin).
Qed.

Lemma list_from_txt_entries_clean_witness :
  Forall (fun entry =>
            kept "#" entry = true
            /\ char_in newline entry = false
            /\ first_char entry <> Some " "%char) ["a"; "c "].
Proof.
  apply (list_from_txt_entries_clean
           (one_file_world "files.txt" ("a" ++ nl ++ "#b" ++ nl ++ " c " ++ nl))
           "files.txt" "#" [] ["a"; "c "]).
  reflexivity.
Defined.

(* ================================================================== *)
(** ** The NERSC helpers *)

(** X18: [NERSC_RetreiveData] returns normally on the empty list only, where
    it copies nothing and logs its two empty path lists; on any other
    argument, a single name included, it raises [NameError] before it
    has printed or copied anything. *)
Theorem NERSC_RetreiveData_outcome (filename : Nersc.names)
    (username destinationpath archivepath : string) (tr : trace) :
  Nersc.NERSC_RetreiveData filename username destinationpath archivepath tr =
  match Nersc.as_list filename with
  | [] => (inr tt,
           tr ++ [Log "file path list complete"; Stdout [JArr []];
                  Log "destination path list complete"; Stdout [JArr []]])
  | _ :: _ => (inl (NameError "useraccount"), tr)
  end.
Proof.
  unfold Nersc.NERSC_RetreiveData, Nersc.NERSC_RetreiveData_in.
  destruct (Nersc.as_list filename) as [|f rest]; [|reflexivity].
  cbn [Nersc.build_paths]. unfold bind at 1. unfold ret at 1.
  rewrite !bind_emit. cbn [List.length range seq List.map Nersc.copy_files].
  unfold ret. rewrite <- !app_assoc. reflexivity.
Qed.

Lemma NERSC_RetreiveData_with_account_witness :
  exists tr',
    Nersc.NERSC_RetreiveData_in (globals_with_account "hmwood")
      (Nersc.Several ["scan_01"; "scan_02"]) "someone" "/scratch/"
      Nersc.NERSC_DefaultPath [] = (inr tt, tr')
    /\ copies tr' =
       ["cp /global/project/projectdirs/als/spade/warehouse/als/bl832/hmwood/scan_01/raw/scan_01.h5 /scratch/scan_01.h5";
        "cp /global/project/projectdirs/als/spade/warehouse/als/bl832/hmwood/scan_02/raw/scan_02.h5 /scratch/scan_02.h5"].
Proof.
  apply (NERSC_RetreiveData_with_account (globals_with_account "hmwood") "hmwood"
           eq_refl "/scratch/" Nersc.NERSC_DefaultPath
           (Nersc.Several ["scan_01"; "scan_02"]) "someone" []).
Defined.


Lemma requested_app (t1 t2 : trace) :
  requested (t1 ++ t2) = requested t1 ++ requested t2.
Proof.
  induction t1 as [|e t1 IH]; simpl; [reflexivity|].
  destruct e; simpl; rewrite IH; reflexivity.
Qed.

(** X21: [NERSC_StageData] stages nothing: on an argument that is not the
    empty list it ends in an exception, and no GET has been sent. *)
Theorem NERSC_StageData_stages_nothing (w : world) (typed_username : string)
    (filename : Nersc.names) (username : string) (tr : trace) :
  Nersc.as_list filename <> [] ->
  is_error (fst (Nersc.NERSC_StageData w typed_username filename username tr)) = true
  /\ requested (snd (Nersc.NERSC_StageData w typed_username filename username tr))
     = requested tr.
Proof.
  intros Hne.
  assert (Hrun : exists e,
            Nersc.NERSC_StageData w typed_username filename username tr =
            (inl e,
             tr ++ [Stdout [JStr "username:"]; GetPass;
                    HttpPost "https://portal-auth.nersc.gov/als/auth"
                      [("username", JStr typed_username);
                       ("password", JStr (typed_password w))]])).
  { unfold Nersc.NERSC_StageData, Nersc.NERSC_StageData_in.
    rewrite !bind_emit. unfold bind at 1. unfold session_post at 1.
    destruct (Nersc.as_list filename) as [|f rest]; [contradiction|].
    destruct (server_post w _ _) as [e|resp]; eexists;
      rewrite <- !app_assoc; reflexivity. }
  destruct Hrun as [e ->]. cbn [fst snd]. split; [reflexivity|].
  rewrite requested_app. simpl. apply app_nil_r.
Qed.

Lemma NERSC_StageData_stages_nothing_witness :
  is_error (fst (Nersc.NERSC_StageData scenario_world "hmwood"
                   (Nersc.One "scan_01") "default" [])) = true
  /\ requested (snd (Nersc.NERSC_StageData scenario_world "hmwood"
                       (Nersc.One "scan_01") "default" []))
     = requested [].
Proof.
  apply (NERSC_StageData_stages_nothing scenario_world "hmwood"
           (Nersc.One "scan_01") "default" []).
  discriminate.
Defined.

(* ================================================================== *)
(** ** stage and attributes *)

(** X22: [stage] and [attributes] fail nowhere before their request: for
    every dataset and username each sends exactly one GET, for the same
    raw file of the dataset under its own endpoint, and returns the
    decoded answer. *)
Theorem stage_and_attributes_resource (w : world) (self : SpotSession.t)
    (dataset : string) (username_arg : option string) (tr : trace) :
  exists fn un,
    SpotSession.formatPath self dataset username_arg = inr (fn, un)
    /\ SpotSession.stage w self dataset username_arg tr =
       (decoded (server_get w (SpotSession.URL_stage ++ resource_path un fn) []),
        tr ++ [HttpGet (SpotSession.URL_stage ++ resource_path un fn) []])
    /\ SpotSession.attributes w self dataset username_arg tr =
       (decoded (server_get w (SpotSession.URL_attributes ++ resource_path un fn)
                   [("group", JStr "/")]),
        tr ++ [HttpGet (SpotSession.URL_attributes ++ resource_path un fn)
                 [("group", JStr "/")]]).
Proof.
  destruct (formatPath_total self dataset username_arg) as (fn & un & Hfp).
  exists fn, un. split; [exact Hfp|]. split.
  - unfold SpotSession.stage. rewrite bind_lift, Hfp. apply get_json_run.
  - unfold SpotSession.attributes. rewrite bind_lift, Hfp. apply get_json_run.
Qed.
